(** * Student Test Creator: the quiz session, the response parser and the scorer

    A shallow embedding of [student_test_creator.py].  The script is a
    Streamlit page: every user action re-runs [main] against the session
    store, so one run of the script is modelled as a computation over the
    store that may finish, stop early ([return], [st.rerun()]) or raise.

    What lies outside the script is an input of a run: the button pressed,
    the values the widgets return, and the answer of the completion service.
    The widgets are taken to draw without raising.  Two things the script
    imports are parameters of the model: the decoder [json.loads] and the
    table of the module [syllabus].

    Text is modelled as Rocq strings (sequences of 8-bit characters).  The
    values decoded from the answer of the completion service are Python
    objects built by [json.loads]; they are modelled by the type [json]
    below. *)

From Stdlib Require Import Floats Uint63 Ascii String.
From stdpp Require Import gmap strings list pretty.

#[local] Set Warnings "-register-all".

(** ** Python values decoded from JSON *)

(** A decoded JSON document: [None], [bool], [int], [float], [str], [list]
    and [dict].  A [dict] keeps its keys in insertion order, which is the
    order the option labels are offered in, so it is an association list
    (the decoder is responsible for the keys being distinct). *)
Inductive json : Type :=
| JNull
| JBool (b : bool)
| JInt (n : Z)
| JFloat (f : float)
| JStr (s : string)
| JArr (items : list json)
| JObj (fields : list (string * json)).

(** The exceptions the modelled code can raise.  The last two are those
    [json.loads] raises besides [json.JSONDecodeError]: [RecursionError] on
    a document nested too deep, [ValueError] on an integer literal longer
    than the interpreter's digit limit. *)
Inductive exn : Type :=
| KeyError (key : string)
| TypeError
| AttributeError
| IndexError
| ZeroDivisionError
| RecursionError
| ValueError.

(** A computation that returns or raises. *)
Inductive result (A : Type) : Type :=
| Ok (a : A)
| Raise (e : exn).
Arguments Ok {A} a.
Arguments Raise {A} e.

#[global] Instance result_ret : MRet result := λ A a, Ok a.
#[global] Instance result_bind : MBind result := λ A B f m,
  match m with
  | Ok a => f a
  | Raise e => Raise e
  end.

(** [d.get(key)] on the fields of a [dict] with string keys. *)
Fixpoint dict_get {A : Type} (key : string) (fields : list (string * A)) : option A :=
  match fields with
  | [] => None
  | (k, v) :: rest => if String.eqb k key then Some v else dict_get key rest
  end.

(** Truth value of an object, as tested by [if x:] and [not x]. *)
Definition truthy (v : json) : bool :=
  match v with
  | JNull => false
  | JBool b => b
  | JInt n => negb (n =? 0)%Z
  | JFloat f => negb (PrimFloat.eqb f 0%float)
  | JStr s => negb (String.eqb s "")
  | JArr items => negb (bool_decide (items = []))
  | JObj fields => negb (bool_decide (fields = []))
  end.

(** [obj[key]] for a string key: only a [dict] can be subscripted so. *)
Definition subscript (obj : json) (key : string) : result json :=
  match obj with
  | JObj fields =>
      match dict_get key fields with
      | Some v => Ok v
      | None => Raise (KeyError key)
      end
  | _ => Raise TypeError
  end.

(** [obj.get(key, fallback)]. *)
Definition get_default (obj : json) (key : string) (fallback : json) : result json :=
  match obj with
  | JObj fields => Ok (default fallback (dict_get key fields))
  | _ => Raise AttributeError
  end.

(** A [str] is held as its UTF-8 encoding, and its characters are its code
    points: each starts at a byte that is not a continuation byte
    ([10xxxxxx]) and takes the continuation bytes that follow it. *)
Definition is_continuation (c : ascii) : bool :=
  (128 <=? nat_of_ascii c) && (nat_of_ascii c <? 192).

Definition continues (s : string) : bool :=
  match s with
  | String c _ => is_continuation c
  | EmptyString => false
  end.

Fixpoint code_points (s : string) : list string :=
  match s with
  | EmptyString => []
  | String c rest =>
      match code_points rest with
      | cp :: cps =>
          if continues cp then String c cp :: cps
          else String c EmptyString :: cp :: cps
      | [] => [String c EmptyString]
      end
  end.

(** [len(obj)] and the elements [for x in obj] / [enumerate(obj)] runs
    over: a list gives its items, a dict its keys, a string its characters;
    nothing else is sized or iterable. *)
Definition elements_of (obj : json) : result (list json) :=
  match obj with
  | JArr items => Ok items
  | JObj fields => Ok (JStr <$> fields.*1)
  | JStr s => Ok (JStr <$> code_points s)
  | _ => Raise TypeError
  end.

(** [obj[i]] for a non-negative integer index. *)
Definition item (obj : json) (i : nat) : result json :=
  match obj with
  | JArr items =>
      match items !! i with
      | Some v => Ok v
      | None => Raise IndexError
      end
  | JStr s =>
      match code_points s !! i with
      | Some c => Ok (JStr c)
      | None => Raise IndexError
      end
  | JObj _ => Raise (KeyError (pretty i))
  | _ => Raise TypeError
  end.

(** [obj.keys()] / [obj.items()]: only a dict has them. *)
Definition keys (obj : json) : result (list string) :=
  match obj with
  | JObj fields => Ok fields.*1
  | _ => Raise AttributeError
  end.

(** ** The scorer: [calculate_score] *)

(** The answer map: [st.session_state.student_answers], a dict from the
    keys [q_1], [q_2], ... to the chosen label. *)
Definition question_key (question_num : nat) : string :=
  "q_" +:+ pretty question_num.

(** [student_answer == correct_answer], where the left side is what
    [student_answers.get(..)] gave ([None] when the key is absent, a [str]
    otherwise) and the right side any decoded value. *)
Definition answer_eq (student_answer : option string) (correct_answer : json) : bool :=
  match student_answer, correct_answer with
  | None, JNull => true
  | Some a, JStr c => String.eqb a c
  | _, _ => false
  end.

(** One entry of the [results] list. *)
Record result_entry : Type := mk_entry {
  question_number : nat;
  question_text : json;
  options : json;
  student_answer : option string;
  correct_answer : json;
  is_correct : bool;
  explanation : json;
  topic : json;
  difficulty : json
}.

(** The dict [calculate_score] returns. *)
Record score_data : Type := mk_score {
  total_questions : nat;
  correct_answers : nat;
  score_percentage : float;
  results : list result_entry
}.

(** [int / int]: true division, and [float * 100].  The counts are list
    lengths, far below 2^53, where the conversion to binary64 is exact. *)
Definition float_of_nat (n : nat) : float :=
  PrimFloat.of_uint63 (Uint63.of_Z (Z.of_nat n)).

Definition true_div (a b : nat) : result float :=
  if decide (b = 0) then Raise ZeroDivisionError
  else Ok (PrimFloat.div (float_of_nat a) (float_of_nat b)).

(** The body of the loop, for the question at index [i]. *)
Definition score_question (student_answers : gmap string string)
    (i : nat) (question : json) : result result_entry :=
  let question_num := i + 1 in
  let student_answer := student_answers !! question_key question_num in
  correct_answer ← subscript question "correct_answer";
  let is_correct := answer_eq student_answer correct_answer in
  question_text ← subscript question "question_text";
  options ← subscript question "options";
  explanation ← get_default question "explanation" (JStr "No explanation provided");
  topic ← get_default question "topic" (JStr "General");
  difficulty ← get_default question "difficulty" (JStr "Medium");
  Ok (mk_entry question_num question_text options student_answer
        correct_answer is_correct explanation topic difficulty).

(** [for i, question in enumerate(questions)], threading the two
    accumulators [correct_answers] and [results]. *)
Fixpoint score_loop (student_answers : gmap string string) (i : nat)
    (questions : list json) (correct_answers : nat) (results : list result_entry)
    : result (nat * list result_entry) :=
  match questions with
  | [] => Ok (correct_answers, results)
  | question :: rest =>
      entry ← score_question student_answers i question;
      score_loop student_answers (S i) rest
        (if is_correct entry then correct_answers + 1 else correct_answers)
        (results ++ [entry])
  end.

(** [calculate_score(questions, student_answers)], on the elements of
    [questions]. *)
Definition calculate_score (questions : list json)
    (student_answers : gmap string string) : result score_data :=
  let total_questions := length questions in
  acc ← score_loop student_answers 0 questions 0 [];
  ratio ← true_div acc.1 total_questions;
  let score_percentage := PrimFloat.mul ratio (float_of_nat 100) in
  Ok (mk_score total_questions acc.1 score_percentage acc.2).

(** *** The scorer as the specification words it *)

(** The fields the loop reads with [question[..]]: the question must be a
    dict that has all three. *)
Definition has_scoring_fields (question : json) : bool :=
  match question with
  | JObj fields =>
      bool_decide (is_Some (dict_get "correct_answer" fields))
      && bool_decide (is_Some (dict_get "question_text" fields))
      && bool_decide (is_Some (dict_get "options" fields))
  | _ => false
  end.

(** The question's [correct_answer] is not [None]. *)
Definition has_correct_label (question : json) : bool :=
  match subscript question "correct_answer" with
  | Ok JNull => false
  | Ok _ => true
  | Raise _ => false
  end.

(** A question counts as answered correctly when an answer label is stored
    for it and that label is, as a string, the question's correct label. *)
Definition answered_correctly (answers : gmap string string) (i : nat)
    (question : json) : bool :=
  match answers !! question_key (i + 1), subscript question "correct_answer" with
  | Some label, Ok (JStr correct) => String.eqb label correct
  | _, _ => false
  end.

(** The number of questions answered correctly, the first of [questions]
    being the question at index [i]. *)
Fixpoint count_answered_correctly (answers : gmap string string) (i : nat)
    (questions : list json) : nat :=
  match questions with
  | [] => 0
  | question :: rest =>
      (if answered_correctly answers i question then 1 else 0)
      + count_answered_correctly answers (S i) rest
  end.

(** The number of entries of a [results] list marked correct. *)
Fixpoint marked_correct (entries : list result_entry) : nat :=
  match entries with
  | [] => 0
  | entry :: rest => (if is_correct entry then 1 else 0) + marked_correct rest
  end.

(** The exception the loop body raises on a question that lacks a field. *)
Definition missing_field (question : json) : exn :=
  match question with
  | JObj fields =>
      match dict_get "correct_answer" fields, dict_get "question_text" fields with
      | None, _ => KeyError "correct_answer"
      | Some _, None => KeyError "question_text"
      | Some _, Some _ => KeyError "options"
      end
  | _ => TypeError
  end.

(** ** The response parser: the regular expression *)

(** [re.search(r'\{.*\}', text, re.DOTALL)].  A match needs an opening brace
    with a closing brace somewhere after it.  The search returns the leftmost
    match: it starts at the first opening brace of the text (if that one has
    no closing brace after it, no later one has), and the greedy [.*], which
    under [re.DOTALL] also crosses line breaks, extends it to the last
    closing brace of the text. *)
Fixpoint from_first_open (text : string) : option string :=
  match text with
  | EmptyString => None
  | String c rest =>
      if Ascii.eqb c "{"%char then Some text else from_first_open rest
  end.

(** The longest prefix of [text] that ends with a closing brace. *)
Fixpoint upto_last_close (text : string) : option string :=
  match text with
  | EmptyString => None
  | String c rest =>
      match upto_last_close rest with
      | Some m => Some (String c m)
      | None => if Ascii.eqb c "}"%char then Some (String c EmptyString) else None
      end
  end.

(** [json_match.group()], or [None] when the search finds nothing. *)
Definition search_braces (text : string) : option string :=
  from_first_open text ≫= upto_last_close.

(** Whether the character [c] occurs in [text]. *)
Fixpoint occurs (c : ascii) (text : string) : bool :=
  match text with
  | EmptyString => false
  | String d rest => Ascii.eqb d c || occurs c rest
  end.

(** ** The session store and one run of the script *)

(** The buttons the pages draw. *)
Inductive button : Type :=
| BtnCreate         (* Create My Test *)
| BtnStart          (* Start Test *)
| BtnNewTest        (* Create New Test, on the start page *)
| BtnPrevious       (* Previous *)
| BtnNext           (* Next *)
| BtnFinish         (* Finish Test *)
| BtnAnotherTest.   (* Create Another Test, on the results page *)

#[global] Instance button_eq_dec : EqDecision button.
Proof. solve_decision. Defined.

(** What a run shows or does towards the outside.  Of what it shows the log
    keeps the errors and the warnings; headers, texts and the [st.info] and
    [st.success] messages are not recorded. *)
Inductive event : Type :=
| EvError (msg : string)                 (* st.error *)
| EvWarning (msg : string)               (* st.warning *)
| EvButton (b : button)                  (* a button drawn on the page *)
| EvGenerate (api_key prompt : string).  (* generate_mcqs called *)

(** [st.session_state]: each key is present or not. [test_data] holds [None]
    ([JNull]) or the decoded dict.  [current_question] is only ever assigned
    0, [current_q + 1], or [current_q - 1] under [current_q > 0], so it is a
    natural number. *)
Record session_state : Type := mk_session {
  test_created : option bool;
  test_data : option json;
  test_started : option bool;
  test_completed : option bool;
  student_answers : option (gmap string string);
  current_question : option nat;
  student_name : option string
}.

(** The store with no key: a fresh session, or one whose keys were all
    deleted. *)
Definition no_keys : session_state :=
  mk_session None None None None None None None.

Definition set_test_created (v : bool) (s : session_state) : session_state :=
  mk_session (Some v) (test_data s) (test_started s) (test_completed s)
    (student_answers s) (current_question s) (student_name s).
Definition set_test_data (v : json) (s : session_state) : session_state :=
  mk_session (test_created s) (Some v) (test_started s) (test_completed s)
    (student_answers s) (current_question s) (student_name s).
Definition set_test_started (v : bool) (s : session_state) : session_state :=
  mk_session (test_created s) (test_data s) (Some v) (test_completed s)
    (student_answers s) (current_question s) (student_name s).
Definition set_test_completed (v : bool) (s : session_state) : session_state :=
  mk_session (test_created s) (test_data s) (test_started s) (Some v)
    (student_answers s) (current_question s) (student_name s).
Definition set_student_answers (v : gmap string string) (s : session_state)
    : session_state :=
  mk_session (test_created s) (test_data s) (test_started s) (test_completed s)
    (Some v) (current_question s) (student_name s).
Definition set_current_question (v : nat) (s : session_state) : session_state :=
  mk_session (test_created s) (test_data s) (test_started s) (test_completed s)
    (student_answers s) (Some v) (student_name s).
Definition set_student_name (v : string) (s : session_state) : session_state :=
  mk_session (test_created s) (test_data s) (test_started s) (test_completed s)
    (student_answers s) (current_question s) (Some v).

(** How a run of the script ends before its last line. *)
Inductive ending : Type :=
| Returned          (* a page function returned early *)
| Rerun             (* st.rerun() *)
| Raised (e : exn). (* an uncaught exception *)

(** A step of a run: it goes on with a value, or the run is over.  Either
    way the store keeps what was written to it and the log what was shown. *)
Inductive outcome (A : Type) : Type :=
| Next (a : A) (s : session_state) (log : list event)
| Stop (how : ending) (s : session_state) (log : list event).
Arguments Next {A} a s log.
Arguments Stop {A} how s log.

Definition script (A : Type) : Type :=
  session_state → list event → outcome A.

#[global] Instance script_ret : MRet script := λ A a s log, Next a s log.
#[global] Instance script_bind : MBind script := λ A B f m s log,
  match m s log with
  | Next a s' log' => f a s' log'
  | Stop how s' log' => Stop how s' log'
  end.

(** [st.session_state.key], read. *)
Definition read {A : Type} (key : session_state → option A) : script A :=
  λ s log,
    match key s with
    | Some v => Next v s log
    | None => Stop (Raised AttributeError) s log
    end.

(** [st.session_state.key = v], and the deletion of every key. *)
Definition write (upd : session_state → session_state) : script unit :=
  λ s log, Next () (upd s) log.

Definition emit (e : event) : script unit :=
  λ s log, Next () s (log ++ [e]).

Definition stop {A : Type} (how : ending) : script A :=
  λ s log, Stop how s log.

Definition lift {A : Type} (r : result A) : script A :=
  match r with
  | Ok a => mret a
  | Raise e => stop (Raised e)
  end.

Definition st_error (msg : string) : script unit := emit (EvError msg).
Definition st_warning (msg : string) : script unit := emit (EvWarning msg).

(** What the outside supplies to one run: the button pressed (if any) to
    trigger it, the values of the widgets, and what the completion service
    answers if it is asked. *)
Inductive completion : Type :=
| Content (text : option string)   (* response.choices[0].message.content *)
| Failure (msg : string).          (* any exception, with its str() *)

Record user_input : Type := mk_input {
  click : option button;
  in_student_name : string;
  in_selected_subject : option string;
  in_selected_topics : list string;
  in_additional_info : string;
  in_num_questions : nat;
  in_difficulty_level : string;
  in_api_key : string;
  in_selected_answer : option string;
  in_completion : completion
}.

(** [st.button(..)]: draws the button; true in the run its press triggers. *)
Definition st_button (b : button) (inp : user_input) : script bool :=
  emit (EvButton b);; mret (bool_decide (click inp = Some b)).

(** Where a run left the store, what it logged and how it ended. *)
Definition final_state {A : Type} (o : outcome A) : session_state :=
  match o with
  | Next _ s _ => s
  | Stop _ s _ => s
  end.

Definition final_log {A : Type} (o : outcome A) : list event :=
  match o with
  | Next _ _ log => log
  | Stop _ _ log => log
  end.

Definition raised {A : Type} (o : outcome A) : option exn :=
  match o with
  | Stop (Raised e) _ _ => Some e
  | _ => None
  end.

(** How a run ended, when it did not run to its last line. *)
Definition ended {A : Type} (o : outcome A) : option ending :=
  match o with
  | Next _ _ _ => None
  | Stop how _ _ => Some how
  end.

(** The four stages of the wizard, as [main] tells them apart: a key that
    is absent is about to be initialised to [False]. *)
Inductive stage : Type := Creating | Ready | InProgress | Completed.

Definition stage_of (s : session_state) : stage :=
  if negb (default false (test_created s)) then Creating
  else if negb (default false (test_started s)) then Ready
  else if negb (default false (test_completed s)) then InProgress
  else Completed.

(** The store as [main] initialises it in a session without keys. *)
Definition fresh_session : session_state :=
  mk_session (Some false) (Some JNull) (Some false) (Some false)
    (Some ∅) (Some 0) (Some "").

(** The store after the initialisation block of [main]: the keys that
    were absent hold their initial values. *)
Definition with_defaults (s : session_state) : session_state :=
  mk_session
    (Some (default false (test_created s)))
    (Some (default JNull (test_data s)))
    (Some (default false (test_started s)))
    (Some (default false (test_completed s)))
    (Some (default ∅ (student_answers s)))
    (Some (default 0 (current_question s)))
    (Some (default "" (student_name s))).

(** The question set of a session: the elements of
    [st.session_state.test_data['questions']], when there are any to speak
    of. *)
Definition question_items (s : session_state) : option (list json) :=
  match test_data s with
  | Some data =>
      match subscript data "questions" ≫= elements_of with
      | Ok items => Some items
      | Raise _ => None
      end
  | None => None
  end.

(** The store once the answer selected for the question at index
    [current_q] is saved: nothing is written when no label is selected. *)
Definition with_answer (current_q : nat) (selected_answer : option string)
    (s : session_state) : session_state :=
  match selected_answer, student_answers s with
  | Some (String c label), Some answers =>
      set_student_answers
        (<[question_key (current_q + 1) := String c label]> answers) s
  | _, _ => s
  end.

(** What every run keeps true of a store that has its keys: the index is 0,
    or a test was created and the index is below the number of its
    questions. *)
Definition index_invariant (s : session_state) : Prop :=
  with_defaults s = s
  ∧ ∃ cq,
      current_question s = Some cq
      ∧ (cq = 0
         ∨ (test_created s = Some true
            ∧ ∃ items, question_items s = Some items ∧ cq < length items)).

(** The requests to the completion service that a log records, each with
    the API key and the prompt it was made with. *)
Fixpoint requests (log : list event) : list (string * string) :=
  match log with
  | [] => []
  | EvGenerate api_key prompt :: rest => (api_key, prompt) :: requests rest
  | _ :: rest => requests rest
  end.

(** Every stored answer is a label that is not empty, stored under the key
    of one of the questions 1 to [n]. *)
Definition answers_in_range (answers : gmap string string) (n : nat) : Prop :=
  ∀ key label,
    answers !! key = Some label →
    label ≠ "" ∧ ∃ number, key = question_key number ∧ 1 ≤ number ≤ n.

(** What a store with keys looks like along a session: before a test is
    created there is no test data and the test is not started; a created
    test has truthy test data; before the start nothing is answered and
    the index is 0; from the start on the questions can be counted and the
    answers belong to them. *)
Definition session_invariant (s : session_state) : Prop :=
  ∃ created data started completed answers cq name,
    s = mk_session (Some created) (Some data) (Some started) (Some completed)
          (Some answers) (Some cq) (Some name)
    ∧ (created = false → data = JNull ∧ started = false)
    ∧ (created = true → truthy data = true)
    ∧ (started = false → completed = false ∧ answers = ∅ ∧ cq = 0)
    ∧ (started = true →
       ∃ items,
         question_items s = Some items
         ∧ answers_in_range answers (length items)).

(** The test page can show a question: it reads [question['question_text']]
    and the keys of [question['options']], which must be a dict. *)
Definition displayable (question : json) : bool :=
  match subscript question "question_text", subscript question "options" with
  | Ok _, Ok (JObj _) => true
  | _, _ => false
  end.

(** What a started test has been through: the questions before the one on
    screen were shown, and a completed test was shown in full. *)
Definition shown_invariant (s : session_state) : Prop :=
  test_started s = Some true →
  ∃ items cq,
    question_items s = Some items
    ∧ current_question s = Some cq
    ∧ (∀ i question, items !! i = Some question → i < cq →
                     displayable question = true)
    ∧ (test_completed s = Some true →
       items ≠ [] ∧ Forall (λ q, displayable q = true) items).

(** The stage that follows a stage. *)
Definition next_stage (st : stage) : stage :=
  match st with
  | Creating => Ready
  | Ready => InProgress
  | InProgress => Completed
  | Completed => Completed
  end.

(** The buttons the page of a stage can draw. *)
Definition stage_buttons (st : stage) : list button :=
  match st with
  | Creating => [BtnCreate]
  | Ready => [BtnStart; BtnNewTest]
  | InProgress => [BtnPrevious; BtnNext; BtnFinish]
  | Completed => [BtnAnotherTest]
  end.

(** What [json.loads] does with a text: it returns the decoded document,
    raises [json.JSONDecodeError], or raises another exception, which the
    [except] clause of the parser does not catch. *)
Inductive decoded : Type :=
| Decoded (v : json)
| JSONDecodeError (msg : string)
| Uncaught (e : exn).

(** ** A JSON decoder to run the examples with

    The properties of the parser below hold for whatever [json.loads] does.
    To evaluate the script on concrete answers of the completion service, the
    examples use this recursive-descent decoder.  It reads the JSON grammar
    with two restrictions: numbers are integers (no fraction or exponent)
    and the [\u] escape is not read; both are reported as decoding errors.
    As in Python, a repeated key keeps its first position and its last
    value. *)

Definition dquote : ascii := "034"%char.
Definition backslash : ascii := "092"%char.

Definition is_space (c : ascii) : bool :=
  Ascii.eqb c " " || Ascii.eqb c "009" || Ascii.eqb c "010" || Ascii.eqb c "013".

Fixpoint skip_space (s : string) : string :=
  match s with
  | String c rest => if is_space c then skip_space rest else s
  | EmptyString => s
  end.

Fixpoint strip_prefix (p s : string) : option string :=
  match p, s with
  | EmptyString, _ => Some s
  | String a p', String b s' => if Ascii.eqb a b then strip_prefix p' s' else None
  | _, EmptyString => None
  end.

Definition unescape (c : ascii) : option ascii :=
  if Ascii.eqb c dquote then Some dquote
  else if Ascii.eqb c backslash then Some backslash
  else if Ascii.eqb c "/" then Some "/"%char
  else if Ascii.eqb c "b" then Some "008"%char
  else if Ascii.eqb c "f" then Some "012"%char
  else if Ascii.eqb c "n" then Some "010"%char
  else if Ascii.eqb c "r" then Some "013"%char
  else if Ascii.eqb c "t" then Some "009"%char
  else None.

(** The characters of a string literal after its opening quote, and the
    text after its closing quote. *)
Fixpoint read_string (s : string) : option (string * string) :=
  match s with
  | EmptyString => None
  | String c rest =>
      if Ascii.eqb c dquote then Some (EmptyString, rest)
      else if Ascii.eqb c backslash then
        match rest with
        | String e rest' =>
            match unescape e, read_string rest' with
            | Some ch, Some (body, after) => Some (String ch body, after)
            | _, _ => None
            end
        | EmptyString => None
        end
      else if (nat_of_ascii c <? 32)%nat then None
      else
        match read_string rest with
        | Some (body, after) => Some (String c body, after)
        | None => None
        end
  end.

Definition digit_value (c : ascii) : option Z :=
  let n := nat_of_ascii c in
  if (48 <=? n)%nat && (n <=? 57)%nat then Some (Z.of_nat (n - 48)) else None.

(** The value of the longest run of digits at the head of [s], continuing
    [acc], with the number of digits read and the text after them. *)
Fixpoint read_digits (s : string) (acc : Z) (count : nat) : Z * nat * string :=
  match s with
  | String c rest =>
      match digit_value c with
      | Some d => read_digits rest (acc * 10 + d)%Z (S count)
      | None => (acc, count, s)
      end
  | EmptyString => (acc, count, s)
  end.

Definition read_int (s : string) : option (Z * string) :=
  let '(negative, body) :=
    match s with
    | String "-" rest => (true, rest)
    | _ => (false, s)
    end in
  let '(value, count, after) := read_digits body 0%Z 0 in
  let leading_zero :=
    match body with
    | String "0" _ => (1 <? count)%nat
    | _ => false
    end in
  let fraction_follows :=
    match after with
    | String c _ => Ascii.eqb c "." || Ascii.eqb c "e" || Ascii.eqb c "E"
    | EmptyString => false
    end in
  if (count =? 0)%nat || leading_zero || fraction_follows then None
  else Some (if negative : bool then (- value)%Z else value, after).

(** [fields[key] = v] on the fields of a dict. *)
Fixpoint dict_set (key : string) (v : json) (fields : list (string * json))
    : list (string * json) :=
  match fields with
  | [] => [(key, v)]
  | (k, old) :: rest =>
      if String.eqb k key then (k, v) :: rest else (k, old) :: dict_set key v rest
  end.

Fixpoint read_value (fuel : nat) (s : string) : option (json * string) :=
  match fuel with
  | 0 => None
  | S fuel =>
      match skip_space s with
      | String "{" rest =>
          match skip_space rest with
          | String "}" after => Some (JObj [], after)
          | _ => read_members fuel rest []
          end
      | String "[" rest =>
          match skip_space rest with
          | String "]" after => Some (JArr [], after)
          | _ => read_items fuel rest []
          end
      | String "034" rest =>
          match read_string rest with
          | Some (body, after) => Some (JStr body, after)
          | None => None
          end
      | String "t" _ as text => pair (JBool true) <$> strip_prefix "true" text
      | String "f" _ as text => pair (JBool false) <$> strip_prefix "false" text
      | String "n" _ as text => pair JNull <$> strip_prefix "null" text
      | text =>
          match read_int text with
          | Some (n, after) => Some (JInt n, after)
          | None => None
          end
      end
  end
with read_items (fuel : nat) (s : string) (acc : list json)
    : option (json * string) :=
  match fuel with
  | 0 => None
  | S fuel =>
      match read_value fuel s with
      | Some (v, after) =>
          match skip_space after with
          | String "," more => read_items fuel more (acc ++ [v])
          | String "]" rest => Some (JArr (acc ++ [v]), rest)
          | _ => None
          end
      | None => None
      end
  end
with read_members (fuel : nat) (s : string) (acc : list (string * json))
    : option (json * string) :=
  match fuel with
  | 0 => None
  | S fuel =>
      match skip_space s with
      | String "034" rest =>
          match read_string rest with
          | Some (key, after_key) =>
              match skip_space after_key with
              | String ":" after_colon =>
                  match read_value fuel after_colon with
                  | Some (v, after) =>
                      match skip_space after with
                      | String "," more => read_members fuel more (dict_set key v acc)
                      | String "}" rest' => Some (JObj (dict_set key v acc), rest')
                      | _ => None
                      end
                  | None => None
                  end
              | _ => None
              end
          | None => None
          end
      | _ => None
      end
  end.

Definition decode_json (text : string) : decoded :=
  match read_value (2 * String.length text + 2) text with
  | Some (v, after) =>
      match skip_space after with
      | EmptyString => Decoded v
      | _ => JSONDecodeError "Extra data"
      end
  | None => JSONDecodeError "Expecting value"
  end.

(** The deepest nesting of brackets and braces in a text. *)
Fixpoint nesting (s : string) (depth deepest : nat) : nat :=
  match s with
  | EmptyString => deepest
  | String c rest =>
      if Ascii.eqb c "["%char || Ascii.eqb c "{"%char
      then nesting rest (S depth) (Nat.max deepest (S depth))
      else if Ascii.eqb c "]"%char || Ascii.eqb c "}"%char
      then nesting rest (Nat.pred depth) deepest
      else nesting rest depth deepest
  end.

(** The same decoder with a recursion limit, as the interpreter has one: on
    a text nested deeper than the limit it raises [RecursionError]. *)
Definition decode_json_within (limit : nat) (text : string) : decoded :=
  if limit <? nesting text 0 0 then Uncaught RecursionError
  else decode_json text.

Definition newline : string := String "010" EmptyString.

(** A string between double quotes, to write JSON texts with. *)
Definition quoted (s : string) : string :=
  String dquote s +:+ String dquote EmptyString.

(** ** Sample data for the examples *)

Definition demo_syllabus : list (string * list (string * (string * string))) :=
  [("Mathematics",
    [("Algebra", ("Linear and quadratic equations", "Solve for x"));
     ("Geometry", ("Triangles and circles", "Find the area"))])].

(** A question as the prompt asks for it, and one that only has the three
    fields the scorer reads. *)
Definition demo_question_1 : json :=
  JObj [("question_number", JInt 1);
        ("question_text", JStr "2 + 2 = ?");
        ("options", JObj [("A", JStr "4"); ("B", JStr "3");
                          ("C", JStr "5"); ("D", JStr "22")]);
        ("correct_answer", JStr "A");
        ("explanation", JStr "Two and two make four");
        ("topic", JStr "Algebra");
        ("difficulty", JStr "Easy")].

Definition demo_question_2 : json :=
  JObj [("question_text", JStr "x + 1 = 3, x = ?");
        ("options", JObj [("A", JStr "1"); ("B", JStr "2"); ("C", JStr "3")]);
        ("correct_answer", JStr "B")].

Definition demo_quiz : json :=
  JObj [("questions", JArr [demo_question_1; demo_question_2])].

(** The same quiz as the completion service may send it. *)
Definition demo_json_body : string :=
  quoted "questions" +:+ ": ["
  +:+ "{" +:+ quoted "question_number" +:+ ": 1, "
  +:+ quoted "question_text" +:+ ": " +:+ quoted "2 + 2 = ?" +:+ ", "
  +:+ quoted "options" +:+ ": {"
  +:+ quoted "A" +:+ ": " +:+ quoted "4" +:+ ", "
  +:+ quoted "B" +:+ ": " +:+ quoted "3" +:+ ", "
  +:+ quoted "C" +:+ ": " +:+ quoted "5" +:+ ", "
  +:+ quoted "D" +:+ ": " +:+ quoted "22" +:+ "}, "
  +:+ quoted "correct_answer" +:+ ": " +:+ quoted "A" +:+ ", "
  +:+ quoted "explanation" +:+ ": " +:+ quoted "Two and two make four" +:+ ", "
  +:+ quoted "topic" +:+ ": " +:+ quoted "Algebra" +:+ ", "
  +:+ quoted "difficulty" +:+ ": " +:+ quoted "Easy" +:+ "}, "
  +:+ "{" +:+ quoted "question_text" +:+ ": " +:+ quoted "x + 1 = 3, x = ?" +:+ ", "
  +:+ quoted "options" +:+ ": {"
  +:+ quoted "A" +:+ ": " +:+ quoted "1" +:+ ", "
  +:+ quoted "B" +:+ ": " +:+ quoted "2" +:+ ", "
  +:+ quoted "C" +:+ ": " +:+ quoted "3" +:+ "}, "
  +:+ quoted "correct_answer" +:+ ": " +:+ quoted "B" +:+ "}]".

Definition demo_response : string :=
  "here is your quiz: " +:+ ("{" +:+ demo_json_body +:+ "}") +:+ " thanks".

(** A question without options whose correct answer is [null]. *)
Definition unlabelled_question : json :=
  JObj [("question_text", JStr "?"); ("options", JObj []); ("correct_answer", JNull)].

(** A form filled in, with the answer the completion service will give. *)
Definition demo_form (answer : completion) : user_input :=
  mk_input (Some BtnCreate) "Ada" (Some "Mathematics") ["Algebra"] "" 5 "Easy"
    "sk-test" None answer.

(** A run triggered by pressing [b] (or by nothing), with a label selected
    in the radio group. *)
Definition press (b : option button) (selected : option string) : user_input :=
  mk_input b "" (Some "Mathematics") [] "" 10 "Medium" "" selected (Failure "").

(** A session that holds a quiz, in each of the stages after creation. *)
Definition session_with (data : json) (started completed : bool)
    (answers : gmap string string) (current_q : nat) : session_state :=
  mk_session (Some true) (Some data) (Some started) (Some completed)
    (Some answers) (Some current_q) (Some "Ada").

(** ** The script *)

Section Script.

(** The decoder of the [json] library. *)
Variable json_loads : string → decoded.

(** The syllabus table of the module [syllabus]: for each subject, its
    topics, each with a description and a past-questions note. *)
Variable syllabus : list (string * list (string * (string * string))).

Definition get_topics_for_subject (subject : option string) : list string :=
  match subject with
  | Some name =>
      match dict_get name syllabus with
      | Some topics => topics.*1
      | None => []
      end
  | None => []
  end.

(** [str(subject)] inside an f-string. *)
Definition format_subject (subject : option string) : string :=
  default "None" subject.

(** The loop of [create_openai_prompt] that collects the descriptions of
    the selected topics. *)
Fixpoint describe_topics (subject : option string) (topics : list string)
    (topic_descriptions : string) : result string :=
  match topics with
  | [] => Ok topic_descriptions
  | topic :: rest =>
      match subject ≫= λ name, dict_get name syllabus with
      | Some subject_topics =>
          match dict_get topic subject_topics with
          | Some (description, past_questions) =>
              describe_topics subject rest
                (topic_descriptions
                 +:+ newline +:+ "- " +:+ topic +:+ ": " +:+ description
                 +:+ newline +:+ "  Past Questions Pattern: " +:+ past_questions)
          | None => describe_topics subject rest topic_descriptions
          end
      | None => Raise (KeyError (format_subject subject))
      end
  end.

Definition create_openai_prompt (subject : option string) (topics : list string)
    (additional_info : string) (num_questions : nat) (level : string)
    : result string :=
  topic_descriptions ← describe_topics subject topics "";
  Ok (String.concat newline [
    "";
    "Generate " +:+ pretty num_questions
      +:+ " multiple-choice questions (MCQs) for " +:+ format_subject subject
      +:+ " examination.";
    "";
    "SUBJECT: " +:+ format_subject subject;
    "";
    "TOPICS TO COVER:";
    topic_descriptions;
    "";
    "ADDITIONAL REQUIREMENTS:";
    (if String.eqb additional_info "" then "None" else additional_info);
    "";
    "DIFFICULTY LEVEL: " +:+ level;
    "- If Easy: Focus on direct application of formulas and basic concepts";
    "- If Medium: Require 2-3 step problem solving and concept understanding";
    "- If Hard: Complex multi-step problems requiring deep understanding and multiple concept integration";
    "";
    "INSTRUCTIONS:";
    "1. Generate exactly " +:+ pretty num_questions
      +:+ " questions and make sure donot repeat any question.";
    "2. Each question should have exactly 4 options (A, B, C, D)";
    "3. Only one option should be correct";
    "4. Questions should be educational and test understanding";
    "5. Include numerical problems, conceptual questions, and application-based questions";
    "6. Ensure questions are unambiguous and have clear correct answers";
    "7. Provide detailed explanations for correct answers";
    "8. Make questions suitable for high school level students";
    "";
    "FORMAT YOUR RESPONSE AS JSON:";
    "{";
    "  " +:+ quoted "questions" +:+ ": [";
    "    {";
    "      " +:+ quoted "question_number" +:+ ": 1,";
    "      " +:+ quoted "question_text" +:+ ": " +:+ quoted "Question text here" +:+ ",";
    "      " +:+ quoted "options" +:+ ": {";
    "        " +:+ quoted "A" +:+ ": " +:+ quoted "Option A text" +:+ ",";
    "        " +:+ quoted "B" +:+ ": " +:+ quoted "Option B text" +:+ ", ";
    "        " +:+ quoted "C" +:+ ": " +:+ quoted "Option C text" +:+ ",";
    "        " +:+ quoted "D" +:+ ": " +:+ quoted "Option D text";
    "      },";
    "      " +:+ quoted "correct_answer" +:+ ": " +:+ quoted "A" +:+ ",";
    "      " +:+ quoted "explanation" +:+ ": "
      +:+ quoted "Detailed explanation of why this answer is correct" +:+ ",";
    "      " +:+ quoted "topic" +:+ ": "
      +:+ quoted "Specific topic from the syllabus" +:+ ",";
    "      " +:+ quoted "difficulty" +:+ ": " +:+ quoted level;
    "    }";
    "  ]";
    "}";
    "";
    "Make sure the JSON is properly formatted and can be parsed.";
    ""
  ]).

(** [generate_mcqs(api_key, prompt)]: the request, and [None] with an error
    shown when anything in it raises. *)
Definition generate_mcqs (api_key prompt : string) (answer : completion)
    : script (option string) :=
  emit (EvGenerate api_key prompt);;
  match answer with
  | Content text => mret text
  | Failure msg =>
      st_error ("Error generating questions: " +:+ msg);;
      mret None
  end.

(** [parse_mcq_response(response_text)]: what it returns ([JNull] is
    [None]) with the errors it shows, or the exception of [json.loads] that
    it lets through. *)
Definition parse_mcq_response (response_text : string)
    : result (json * list event) :=
  match search_braces response_text with
  | Some json_text =>
      match json_loads json_text with
      | Decoded mcq_data => Ok (mcq_data, [])
      | JSONDecodeError msg =>
          Ok (JNull, [EvError ("Error parsing JSON response: " +:+ msg)])
      | Uncaught e => Raise e
      end
  | None => Ok (JNull, [EvError "Could not find valid JSON in the response"])
  end.

(** The call of the parser inside a run. *)
Definition run_parser (response_text : string) : script json :=
  λ s log,
    match parse_mcq_response response_text with
    | Ok r => Next r.1 s (log ++ r.2)
    | Raise e => Stop (Raised e) s log
    end.

Definition show_test_creation_interface (inp : user_input) : script unit :=
  let student_name := in_student_name inp in
  let selected_subject := in_selected_subject inp in
  let available_topics := get_topics_for_subject selected_subject in
  selected_topics ←
    (if bool_decide (available_topics = [])
     then st_warning "No topics available for this subject.";; mret []
     else mret (in_selected_topics inp));
  let additional_info := in_additional_info inp in
  let num_questions := in_num_questions inp in
  let difficulty_level := in_difficulty_level inp in
  let api_key := in_api_key inp in
  clicked ← st_button BtnCreate inp;
  if clicked : bool then
    if String.eqb student_name "" then
      st_error "Please enter your name";; stop Returned
    else if String.eqb api_key "" then
      st_error "Please provide your OpenAI API key";; stop Returned
    else if bool_decide (selected_topics = []) then
      st_error "Please select at least one topic";; stop Returned
    else
      write (set_student_name student_name);;
      prompt ← lift (create_openai_prompt selected_subject selected_topics
                       additional_info num_questions difficulty_level);
      response ← generate_mcqs api_key prompt (in_completion inp);
      match response with
      | Some (String c text) =>
          mcq_data ← run_parser (String c text);
          if truthy mcq_data then
            write (set_test_data mcq_data);;
            write (set_test_created true);;
            stop Rerun
          else
            st_error "Failed to create test. Please try again."
      | _ =>
          st_error "Failed to generate questions. Please check your API key and try again."
      end
  else mret ().

(** [for key in list(st.session_state.keys()): del st.session_state[key]] *)
Definition delete_all_keys : script unit := write (λ _, no_keys).

Definition show_test_start_interface (inp : user_input) : script unit :=
  _ ← read student_name;
  data ← read test_data;
  if truthy data then
    questions ← lift (subscript data "questions");
    items ← lift (elements_of questions);
    let num_questions := length items in
    start ← st_button BtnStart inp;
    if start : bool then
      write (set_test_started true);;
      write (set_current_question 0);;
      stop Rerun
    else
      new_test ← st_button BtnNewTest inp;
      if new_test : bool then delete_all_keys;; stop Rerun
      else mret ()
  else mret ().

(** [if selected_answer: st.session_state.student_answers[..] = selected_answer] *)
Definition save_current_answer (current_q : nat) (selected_answer : option string)
    : script unit :=
  match selected_answer with
  | Some (String c label) =>
      answers ← read student_answers;
      write (set_student_answers
               (<[question_key (current_q + 1) := String c label]> answers))
  | _ => mret ()
  end.

(** Below the test [current_q < total_questions] there is at least one
    question, so [total_questions - 1] on natural numbers is the integer
    subtraction of the source, as is [current_q - 1] under [current_q > 0]. *)
Definition show_test_interface (inp : user_input) : script unit :=
  data ← read test_data;
  if negb (truthy data) then
    st_error "No test data available";; stop Returned
  else
    questions ← lift (subscript data "questions");
    current_q ← read current_question;
    items ← lift (elements_of questions);
    let total_questions := length items in
    (* progress = (current_q + 1) / total_questions *)
    _ ← lift (true_div (current_q + 1) total_questions);
    if bool_decide (current_q < total_questions) then
      question ← lift (item questions current_q);
      _ ← lift (subscript question "question_text");
      opts ← lift (subscript question "options");
      _ ← lift (keys opts);
      let selected_answer := in_selected_answer inp in
      (if bool_decide (0 < current_q) then
         previous ← st_button BtnPrevious inp;
         if previous : bool then
           save_current_answer current_q selected_answer;;
           write (set_current_question (current_q - 1));;
           stop Rerun
         else mret ()
       else mret () : script unit);;
      (if bool_decide (current_q < total_questions - 1) then
         next ← st_button BtnNext inp;
         if next : bool then
           save_current_answer current_q selected_answer;;
           write (set_current_question (current_q + 1));;
           stop Rerun
         else mret ()
       else mret () : script unit);;
      (if bool_decide (current_q = total_questions - 1) then
         finish ← st_button BtnFinish inp;
         if finish : bool then
           save_current_answer current_q selected_answer;;
           write (set_test_completed true);;
           stop Rerun
         else mret ()
       else mret () : script unit);;
      _ ← read student_answers;
      mret ()
    else mret ().

(** One entry of the detailed results: [st.success] or [st.error], then
    the expander with the question and its options, where only
    [result['options'].items()] can raise. *)
Definition display_entry (entry : result_entry) : script unit :=
  (if is_correct entry then mret ()
   else st_error ("❌ Question " +:+ pretty (question_number entry)
                  +:+ ": Incorrect"));;
  _ ← lift (keys (options entry));
  mret ().

Fixpoint display_entries (shown : list result_entry) : script unit :=
  match shown with
  | [] => mret ()
  | entry :: rest => display_entry entry;; display_entries rest
  end.

(** [display_results(score_data, student_name)]: the score summary, the
    performance message ([st.success] from 80 percent, [st.info] from 60,
    [st.warning] below), then the entries of [results] in turn.  As
    everywhere, the log keeps the warnings and the errors shown. *)
Definition display_results (score : score_data) (student_name : string)
    : script unit :=
  (if PrimFloat.leb (float_of_nat 80) (score_percentage score) then mret ()
   else if PrimFloat.leb (float_of_nat 60) (score_percentage score) then mret ()
   else st_warning ("📚 Keep studying, " +:+ student_name
                    +:+ "! You can do better next time."));;
  display_entries (results score).

(** The warning and the errors of a report that is displayed to its end:
    the warning when the percentage is below 60, and one error for each
    entry that is not marked correct, in the order of the entries. *)
Definition report_messages (score : score_data) (student_name : string)
    : list event :=
  (if PrimFloat.leb (float_of_nat 80) (score_percentage score)
      || PrimFloat.leb (float_of_nat 60) (score_percentage score)
   then []
   else [EvWarning ("📚 Keep studying, " +:+ student_name
                    +:+ "! You can do better next time.")])
  ++ ((λ entry, EvError ("❌ Question " +:+ pretty (question_number entry)
                         +:+ ": Incorrect"))
        <$> filter (λ entry, is_correct entry = false) (results score)).

Definition show_results_interface (inp : user_input) : script unit :=
  data ← read test_data;
  if negb (truthy data) then
    st_error "No test data available";; stop Returned
  else
    questions ← lift (subscript data "questions");
    answers ← read student_answers;
    items ← lift (elements_of questions);
    score ← lift (calculate_score items answers);
    name ← read student_name;
    display_results score name;;
    again ← st_button BtnAnotherTest inp;
    if again : bool then delete_all_keys;; stop Rerun
    else mret ().

(** [if 'key' not in st.session_state: st.session_state.key = value] *)
Definition init_key {A : Type} (key : session_state → option A)
    (upd : A → session_state → session_state) (value : A) : script unit :=
  λ s log,
    match key s with
    | Some _ => Next () s log
    | None => Next () (upd value s) log
    end.

(** The block of [main] under "Initialize session state". *)
Definition initialise : script unit :=
  init_key test_created set_test_created false;;
  init_key test_data set_test_data JNull;;
  init_key test_started set_test_started false;;
  init_key test_completed set_test_completed false;;
  init_key student_answers set_student_answers ∅;;
  init_key current_question set_current_question 0;;
  init_key student_name set_student_name "".

Definition main (inp : user_input) : script unit :=
  initialise;;
  created ← read test_created;
  if negb created then show_test_creation_interface inp
  else
    started ← read test_started;
    if negb started then show_test_start_interface inp
    else
      completed ← read test_completed;
      if negb completed then show_test_interface inp
      else show_results_interface inp.

(** One run of the script against the store [s]. *)
Definition run (inp : user_input) (s : session_state) : outcome unit :=
  main inp s [].

(** The two ways a creation attempt fails once the form is accepted:
    [generate_mcqs] gives [None] or an empty text, or the parser gives [None]
    (or a document that is empty, which the page treats alike).  A parser
    that lets an exception of [json.loads] through has not returned: the
    run then raises, which is neither of the two. *)
Definition generation_failed (answer : completion) : Prop :=
  match answer with
  | Content (Some (String _ _)) => False
  | _ => True
  end.

Definition parse_failed (answer : completion) : Prop :=
  match answer with
  | Content (Some (String c text)) =>
      match parse_mcq_response (String c text) with
      | Ok returned => truthy returned.1 = false
      | Raise _ => False
      end
  | _ => False
  end.

(** The stores a session can be in: it starts without keys, and every run
    of the script, whatever the outside supplies, leads to the next one. *)
Inductive reachable : session_state → Prop :=
| reachable_new : reachable no_keys
| reachable_run inp s : reachable s → reachable (final_state (run inp s)).

(** The form passes the three checks of the creation page in a run that
    the create button triggered. *)
Definition form_accepted (inp : user_input) : bool :=
  bool_decide (click inp = Some BtnCreate)
  && negb (String.eqb (in_student_name inp) "")
  && negb (String.eqb (in_api_key inp) "")
  && negb (bool_decide (get_topics_for_subject (in_selected_subject inp) = []))
  && negb (bool_decide (in_selected_topics inp = [])).

(** The store after one run for each of [inps], in turn. *)
Definition runs (inps : list user_input) (s : session_state) : session_state :=
  foldl (λ s inp, final_state (run inp s)) s inps.

(** ** Properties of the response parser *)

Lemma append_close body post :
  (body +:+ "}") +:+ post = body +:+ String "}" post.
Proof.
  induction body as [|c body IH]; [done |].
  change (String c ((body +:+ "}") +:+ post) = String c (body +:+ String "}" post)).
  by rewrite IH.
Qed.

Lemma from_first_open_none text :
  occurs "{" text = false → from_first_open text = None.
Proof.
  induction text as [|c text IH]; simpl; [done |].
  intros [Hc Hrest]%orb_false_elim. rewrite Hc. auto.
Qed.

Lemma from_first_open_skips pre rest :
  occurs "{" pre = false →
  from_first_open (pre +:+ String "{" rest) = Some (String "{" rest).
Proof.
  induction pre as [|c pre IH]; [done |].
  change (String c pre +:+ String "{" rest)
    with (String c (pre +:+ String "{" rest)). simpl.
  intros [Hc Hrest]%orb_false_elim. rewrite Hc. auto.
Qed.

Lemma upto_last_close_none text :
  occurs "}" text = false → upto_last_close text = None.
Proof.
  induction text as [|c text IH]; simpl; [done |].
  intros [Hc Hrest]%orb_false_elim. by rewrite IH, Hc.
Qed.

Lemma upto_last_close_last body post :
  occurs "}" post = false →
  upto_last_close (body +:+ String "}" post) = Some (body +:+ "}").
Proof.
  intros Hpost. induction body as [|c body IH].
  - change (upto_last_close (String "}" post) = Some "}"). simpl.
    by rewrite upto_last_close_none.
  - change (upto_last_close (String c (body +:+ String "}" post))
            = Some (String c (body +:+ "}"))).
    simpl. by rewrite IH.
Qed.

(** The match runs from the first opening brace to the last closing one. *)
Lemma search_braces_span pre body post :
  occurs "{" pre = false →
  occurs "}" post = false →
  search_braces (pre +:+ ("{" +:+ body +:+ "}") +:+ post)
  = Some ("{" +:+ body +:+ "}").
Proof.
  intros Hpre Hpost. unfold search_braces.
  change ("{" +:+ body +:+ "}") with (String "{" body +:+ "}").
  rewrite append_close.
  change (String "{" body +:+ String "}" post)
    with (String "{" (body +:+ String "}" post)).
  rewrite from_first_open_skips by done.
  change (String "{" (body +:+ String "}" post))
    with (String "{" body +:+ String "}" post).
  simpl mbind. by rewrite upto_last_close_last.
Qed.

(** A text without an opening brace has no match. *)
Lemma search_braces_no_open text :
  occurs "{" text = false → search_braces text = None.
Proof. intros H. unfold search_braces. by rewrite from_first_open_none. Qed.



(** C8: whatever document the span decodes to, the parser returns it as it
    is and reports nothing; it looks at no field of it. *)
Theorem parse_mcq_response_no_validation (text span : string) (mcq_data : json) :
  search_braces text = Some span →
  json_loads span = Decoded mcq_data →
  parse_mcq_response text = Ok (mcq_data, []).
Proof.
  intros Hspan Hdec. unfold parse_mcq_response. by rewrite Hspan, Hdec.
Qed.

(** ** Properties of the creation page *)

Lemma describe_topics_known name subject_topics topics acc :
  dict_get name syllabus = Some subject_topics →
  ∃ text, describe_topics (Some name) topics acc = Ok text.
Proof.
  intros Hsub. revert acc.
  induction topics as [|topic rest IH]; intros acc; simpl; [by eexists |].
  rewrite Hsub. destruct (dict_get topic subject_topics) as [[??]|]; apply IH.
Qed.

(** The prompt is built whenever the subject has topics to choose from. *)
Lemma create_openai_prompt_known subject topics info n level :
  get_topics_for_subject subject ≠ [] →
  ∃ prompt, create_openai_prompt subject topics info n level = Ok prompt.
Proof.
  unfold get_topics_for_subject. destruct subject as [name|]; [|done].
  destruct (dict_get name syllabus) as [subject_topics|] eqn:Hsub; [|done].
  intros _. unfold create_openai_prompt.
  destruct (describe_topics_known name subject_topics topics "" Hsub) as [text ->].
  eexists. reflexivity.
Qed.

Arguments create_openai_prompt : simpl never.
Arguments parse_mcq_response : simpl never.

Ltac unfold_script :=
  unfold mbind, script_bind, mret, script_ret, read, write, emit, stop,
    st_error, st_warning, st_button, delete_all_keys, init_key in *.

(** C7: a press of the create button with an empty name, an empty API key
    or no topic selected ends the run at once: the store is as it was, an
    error message is shown, and [generate_mcqs] was not called (the run adds
    to the log the warning about topics, if any, the button and the
    message, nothing else). *)
Theorem creation_rejects_incomplete_form (inp : user_input)
    (s : session_state) (log : list event) :
  click inp = Some BtnCreate →
  in_student_name inp = "" ∨ in_api_key inp = ""
    ∨ get_topics_for_subject (in_selected_subject inp) = []
    ∨ in_selected_topics inp = [] →
  ∃ msg,
    msg ∈ ["Please enter your name"; "Please provide your OpenAI API key";
           "Please select at least one topic"]
    ∧ show_test_creation_interface inp s log
      = Stop Returned s
          (log
           ++ (if bool_decide (get_topics_for_subject (in_selected_subject inp) = [])
               then [EvWarning "No topics available for this subject."] else [])
           ++ [EvButton BtnCreate; EvError msg]).
Proof.
  intros Hclick Hbad.
  unfold show_test_creation_interface. unfold_script.
  rewrite Hclick. simpl.
  destruct (String.eqb_spec (in_student_name inp) "") as [Hname|Hname].
  { eexists. split; [by apply list_elem_of_here |].
    case_bool_decide; by rewrite <- !app_assoc. }
  destruct (String.eqb_spec (in_api_key inp) "") as [Hkey|Hkey].
  { eexists. split; [by apply list_elem_of_further, list_elem_of_here |].
    case_bool_decide; by rewrite <- !app_assoc. }
  eexists. split; [by do 2 apply list_elem_of_further; apply list_elem_of_here |].
  case_bool_decide as Htopics; simpl.
  - by rewrite <- !app_assoc.
  - rewrite bool_decide_eq_true_2; [by rewrite <- !app_assoc |].
    by destruct Hbad as [?|[?|[?|?]]].
Qed.

(** C2 (as amended): when the form is accepted and the attempt fails in
    generation or in parsing, the run ends with an error shown and the store
    changed in one key only: [student_name] holds the submitted name.  No
    question set is recorded, the answer map is as it was, and the stage is
    the same. *)
Theorem failed_creation_stores_only_the_name (inp : user_input)
    (s : session_state) (log : list event) :
  click inp = Some BtnCreate →
  in_student_name inp ≠ "" →
  in_api_key inp ≠ "" →
  get_topics_for_subject (in_selected_subject inp) ≠ [] →
  in_selected_topics inp ≠ [] →
  generation_failed (in_completion inp) ∨ parse_failed (in_completion inp) →
  let o := show_test_creation_interface inp s log in
  final_state o = set_student_name (in_student_name inp) s
  ∧ ended o = None
  ∧ (∃ shown msg, final_log o = log ++ shown ++ [EvError msg])
  ∧ test_created (final_state o) = test_created s
  ∧ test_data (final_state o) = test_data s
  ∧ test_started (final_state o) = test_started s
  ∧ test_completed (final_state o) = test_completed s
  ∧ student_answers (final_state o) = student_answers s
  ∧ current_question (final_state o) = current_question s
  ∧ student_name (final_state o) = Some (in_student_name inp)
  ∧ stage_of (final_state o) = stage_of s.
Proof.
  intros Hclick Hname Hkey Htopics Hsel Hfail o.
  assert (Ho : final_state o = set_student_name (in_student_name inp) s
               ∧ ended o = None
               ∧ ∃ shown msg, final_log o = log ++ shown ++ [EvError msg]).
  { subst o. unfold show_test_creation_interface. unfold_script.
    rewrite Hclick. simpl.
    rewrite bool_decide_eq_false_2 by done.
    destruct (String.eqb_spec (in_student_name inp) "") as [|_]; [done |].
    destruct (String.eqb_spec (in_api_key inp) "") as [|_]; [done |].
    rewrite bool_decide_eq_false_2 by done.
    destruct (create_openai_prompt_known (in_selected_subject inp)
                (in_selected_topics inp) (in_additional_info inp)
                (in_num_questions inp) (in_difficulty_level inp) Htopics)
      as [prompt ->].
    unfold generate_mcqs, run_parser. unfold_script. simpl.
    unfold generation_failed, parse_failed in Hfail.
    destruct (in_completion inp) as [[[|c text]|]|msg]; simpl.
    - split_and!; [reflexivity | reflexivity |].
      exists [EvButton BtnCreate; EvGenerate (in_api_key inp) prompt]. eexists.
      rewrite <- !app_assoc. reflexivity.
    - destruct Hfail as [[]|Hfail].
      destruct (parse_mcq_response (String c text)) as [returned|e]; [| done].
      simpl. rewrite Hfail. simpl.
      split_and!; [reflexivity | reflexivity |].
      exists ([EvButton BtnCreate; EvGenerate (in_api_key inp) prompt]
              ++ returned.2). eexists.
      rewrite <- !app_assoc. reflexivity.
    - split_and!; [reflexivity | reflexivity |].
      exists [EvButton BtnCreate; EvGenerate (in_api_key inp) prompt]. eexists.
      rewrite <- !app_assoc. reflexivity.
    - split_and!; [reflexivity | reflexivity |].
      exists [EvButton BtnCreate; EvGenerate (in_api_key inp) prompt;
              EvError ("Error generating questions: " +:+ msg)]. eexists.
      rewrite <- !app_assoc. reflexivity. }
  destruct Ho as (Hs & Hend & Hlog). rewrite Hs.
  split_and!; try reflexivity; assumption.
Qed.

(** ** One run of the script, by stage *)

Arguments show_test_creation_interface : simpl never.
Arguments show_test_start_interface : simpl never.
Arguments show_test_interface : simpl never.
Arguments show_results_interface : simpl never.

Lemma initialise_defaults s log :
  initialise s log = Next () (with_defaults s) log.
Proof. by destruct s as [[?|] [?|] [?|] [?|] [?|] [?|] [?|]]. Qed.

(** [main] shows the page of the stage the store is in. *)
Lemma run_stage inp s :
  run inp s =
  match stage_of s with
  | Creating => show_test_creation_interface inp (with_defaults s) []
  | Ready => show_test_start_interface inp (with_defaults s) []
  | InProgress => show_test_interface inp (with_defaults s) []
  | Completed => show_results_interface inp (with_defaults s) []
  end.
Proof.
  unfold run, main, stage_of.
  change ((initialise ≫= ?f) s []) with
    (match initialise s [] with
     | Next a s' log' => f a s' log'
     | Stop how s' log' => Stop how s' log'
     end).
  rewrite initialise_defaults.
  destruct s as [[[|]|] ? [[|]|] [[|]|] ? ? ?]; reflexivity.
Qed.

(** ** Properties of the test page *)

(** What a run of the test page can leave in the store: nothing new, or
    the effect of the one navigation button that was on the page and
    pressed. *)
Lemma test_page_cases inp s log cq answers :
  current_question s = Some cq →
  student_answers s = Some answers →
  let o := show_test_interface inp s log in
  final_state o = s
  ∨ ∃ items,
      question_items s = Some items
      ∧ cq < length items
      ∧ ((0 < cq ∧ click inp = Some BtnPrevious
          ∧ final_state o
            = set_current_question (cq - 1)
                (with_answer cq (in_selected_answer inp) s))
         ∨ (cq < length items - 1 ∧ click inp = Some BtnNext
            ∧ final_state o
              = set_current_question (cq + 1)
                  (with_answer cq (in_selected_answer inp) s))
         ∨ (cq = length items - 1 ∧ click inp = Some BtnFinish
            ∧ final_state o
              = set_test_completed true
                  (with_answer cq (in_selected_answer inp) s))).
Proof.
  intros Hcq Hanswers o. subst o.
  unfold show_test_interface, save_current_answer, question_items, with_answer.
  unfold_script. unfold lift. unfold_script. simpl.
  repeat (first [rewrite Hcq | rewrite Hanswers | case_match];
          simpl in *; simplify_eq; try (left; reflexivity)).
  all: repeat match goal with
         | H : bool_decide _ = true |- _ => apply bool_decide_eq_true_1 in H
         | H : bool_decide _ = false |- _ => apply bool_decide_eq_false_1 in H
         end.
  all: right; eexists; split; [reflexivity |]; split; [assumption |].
  all: first
         [ left; split_and!; [assumption | assumption | reflexivity]
         | right; left; split_and!; [assumption | assumption | reflexivity]
         | right; right; split_and!; [assumption | assumption | reflexivity] ].
Qed.

Lemma question_key_inj n m : question_key n = question_key m → n = m.
Proof.
  unfold question_key. intros H. apply (inj (String.app "q_")) in H.
  by apply (inj pretty) in H.
Qed.

(** The answers in the store once the selected answer is saved. *)
Lemma with_answer_answers cq selected s answers :
  student_answers s = Some answers →
  student_answers (with_answer cq selected s) = Some answers
  ∨ ∃ label,
      selected = Some label ∧ label ≠ ""
      ∧ student_answers (with_answer cq selected s)
        = Some (<[question_key (cq + 1) := label]> answers).
Proof.
  intros Hanswers. unfold with_answer. rewrite Hanswers.
  destruct selected as [[|c label]|]; [by left | | by left].
  right. by exists (String c label).
Qed.

(** C10: a run of the test page keeps every stored answer except, at most,
    that of the question on screen: the answer map is left as it is, or the
    selected label, if there is one, is written under the key of the current
    question. *)
Theorem navigation_keeps_other_answers (inp : user_input) (s : session_state)
    (log : list event) (cq : nat) (answers : gmap string string) :
  current_question s = Some cq →
  student_answers s = Some answers →
  let o := show_test_interface inp s log in
  ∃ answers',
    student_answers (final_state o) = Some answers'
    ∧ (answers' = answers
       ∨ ∃ label,
           in_selected_answer inp = Some label ∧ label ≠ ""
           ∧ answers' = <[question_key (cq + 1) := label]> answers)
    ∧ dom answers ⊆ dom answers'
    ∧ (∀ key, key ≠ question_key (cq + 1) → answers' !! key = answers !! key)
    ∧ (∀ n, n ≠ cq + 1 → answers' !! question_key n = answers !! question_key n).
Proof using Type.
  intros Hcq Hanswers o.
  assert (Hsaved : student_answers (final_state o) = Some answers
                   ∨ ∃ label,
                       in_selected_answer inp = Some label ∧ label ≠ ""
                       ∧ student_answers (final_state o)
                         = Some (<[question_key (cq + 1) := label]> answers)).
  { destruct (test_page_cases inp s log cq answers Hcq Hanswers)
      as [Hsame | (items & _ & _ & [(_ & _ & Hfinal) | [(_ & _ & Hfinal) | (_ & _ & Hfinal)]])];
      fold o in Hsame || fold o in Hfinal.
    - left. by rewrite Hsame.
    - rewrite Hfinal. apply (with_answer_answers cq (in_selected_answer inp) s answers Hanswers).
    - rewrite Hfinal. apply (with_answer_answers cq (in_selected_answer inp) s answers Hanswers).
    - rewrite Hfinal. apply (with_answer_answers cq (in_selected_answer inp) s answers Hanswers). }
  destruct Hsaved as [Hsame | (label & Hsel & Hlabel & Hins)].
  - exists answers. split_and!; [done | by left | done | done | done].
  - exists (<[question_key (cq + 1) := label]> answers).
    split_and!; [done | right; by exists label | | |].
    + rewrite dom_insert_L. apply union_subseteq_r.
    + intros key Hkey. by rewrite lookup_insert_ne.
    + intros n Hn. rewrite lookup_insert_ne; [done |].
      intros Heq. by apply question_key_inj in Heq.
Qed.

(** The test page on a question it can display: it does not raise, and the
    store it leaves depends on the button pressed and on the index only. *)
Lemma test_page_navigation inp s log data qs cq question text opts labels answers :
  test_data s = Some data →
  subscript data "questions" = Ok (JArr qs) →
  current_question s = Some cq →
  qs !! cq = Some question →
  subscript question "question_text" = Ok text →
  subscript question "options" = Ok opts →
  keys opts = Ok labels →
  student_answers s = Some answers →
  let o := show_test_interface inp s log in
  let saved := with_answer cq (in_selected_answer inp) s in
  raised o = None
  ∧ final_state o =
      match click inp with
      | Some BtnPrevious =>
          if decide (cq = 0) then s else set_current_question (cq - 1) saved
      | Some BtnNext =>
          if decide (cq = length qs - 1) then s
          else set_current_question (cq + 1) saved
      | Some BtnFinish =>
          if decide (cq = length qs - 1) then set_test_completed true saved
          else s
      | _ => s
      end.
Proof.
  intros Hdata Hqs Hcq Hq Htext Hopts Hkeys Hanswers o saved. subst o saved.
  assert (Hlt : cq < length qs) by (by eapply lookup_lt_Some).
  assert (Htruthy : truthy data = true).
  { destruct data as [| | | | | |[|field fields]]; try done. }
  unfold show_test_interface, save_current_answer, with_answer.
  unfold_script. unfold lift. unfold_script. simpl.
  unfold true_div.
  repeat (first [ rewrite Hdata | rewrite Htruthy | rewrite Hqs | rewrite Hcq
                | rewrite Hq | rewrite Htext | rewrite Hopts | rewrite Hkeys
                | rewrite decide_False by lia
                | rewrite bool_decide_eq_true_2 by done ]; simpl).
  destruct (click inp) as [[]|]; simpl;
    repeat case_bool_decide; repeat case_decide; try lia; try done;
    destruct (in_selected_answer inp) as [[|c label]|]; simpl;
    rewrite ?Hanswers; simpl; rewrite ?Hanswers; done.
Qed.

(** ** The display of the report *)

(** Displaying the report changes nothing in the store; it runs to its end
    or raises [AttributeError], on options that are not a dict. *)
Lemma display_entries_outcome shown s :
  ∀ log, ∃ added,
    display_entries shown s log = Next () s (log ++ added)
    ∨ display_entries shown s log = Stop (Raised AttributeError) s (log ++ added).
Proof using Type.
  induction shown as [|entry rest IH]; intros log.
  - exists []. left. by rewrite app_nil_r.
  - simpl. unfold display_entry. unfold_script. unfold lift, emit.
    destruct (is_correct entry), (options entry) as [| | | | | |fields]; simpl;
      try (by (exists []; right; rewrite app_nil_r));
      try (eexists [_]; by right).
    + apply IH.
    + destruct (IH (log ++ [EvError ("❌ Question " +:+ pretty (question_number entry)
                                     +:+ ": Incorrect")]))
        as [added [-> | ->]]; eexists (_ :: added); rewrite <- app_assoc;
        [by left | by right].
Qed.

Lemma display_results_outcome score name s log :
  ∃ added,
    display_results score name s log = Next () s (log ++ added)
    ∨ display_results score name s log
      = Stop (Raised AttributeError) s (log ++ added).
Proof using Type.
  unfold display_results. unfold_script. unfold emit.
  destruct (PrimFloat.leb (float_of_nat 80) (score_percentage score));
    [| destruct (PrimFloat.leb (float_of_nat 60) (score_percentage score))];
    try apply display_entries_outcome.
  destruct (display_entries_outcome (results score) s
              (log ++ [EvWarning ("📚 Keep studying, " +:+ name
                                  +:+ "! You can do better next time.")]))
    as [added [-> | ->]]; eexists (_ :: added); rewrite <- app_assoc;
    [by left | by right].
Qed.

(** A report whose entries all have a dict of options is displayed to its
    end, and the log gets its messages. *)
Lemma display_entries_dicts shown s :
  Forall (λ entry, ∃ fields, options entry = JObj fields) shown →
  ∀ log,
    display_entries shown s log
    = Next () s
        (log ++ ((λ entry, EvError ("❌ Question " +:+ pretty (question_number entry)
                                    +:+ ": Incorrect"))
                   <$> filter (λ entry, is_correct entry = false) shown)).
Proof using Type.
  induction 1 as [|entry rest [fields Hfields] _ IH]; intros log.
  - by rewrite app_nil_r.
  - simpl. unfold display_entry. unfold_script. unfold lift, emit.
    rewrite Hfields. simpl. rewrite filter_cons.
    destruct (is_correct entry); simpl.
    + apply IH.
    + rewrite IH, <- app_assoc. reflexivity.
Qed.

Lemma display_results_dicts score name s log :
  Forall (λ entry, ∃ fields, options entry = JObj fields) (results score) →
  display_results score name s log
  = Next () s (log ++ report_messages score name).
Proof using Type.
  intros Hdicts. unfold display_results, report_messages. unfold_script.
  unfold emit.
  destruct (PrimFloat.leb (float_of_nat 80) (score_percentage score));
    [| destruct (PrimFloat.leb (float_of_nat 60) (score_percentage score))];
    simpl; rewrite (display_entries_dicts _ s Hdicts); try done.
  by rewrite <- app_assoc.
Qed.

Arguments display_results : simpl never.

Ltac case_display :=
  match goal with
  | |- context [display_results ?score ?name ?s ?log] =>
      let added := fresh "added" in
      destruct (display_results_outcome score name s log) as [added [-> | ->]]
  end.

(** ** What the other pages can leave in the store *)

Lemma creation_page_cases inp s log :
  let o := show_test_creation_interface inp s log in
  final_state o = s
  ∨ final_state o = set_student_name (in_student_name inp) s
  ∨ ∃ data,
      final_state o
      = set_test_created true
          (set_test_data data (set_student_name (in_student_name inp) s)).
Proof.
  intros o. subst o.
  unfold show_test_creation_interface, generate_mcqs, run_parser.
  unfold_script. unfold lift. unfold_script. simpl.
  repeat (case_match; simpl in *; simplify_eq; try (left; reflexivity);
          try (right; left; reflexivity)).
  all: right; right; eexists; reflexivity.
Qed.

Lemma start_page_cases inp s log :
  let o := show_test_start_interface inp s log in
  final_state o = s
  ∨ final_state o = set_current_question 0 (set_test_started true s)
  ∨ final_state o = no_keys.
Proof.
  intros o. subst o.
  unfold show_test_start_interface.
  unfold_script. unfold lift. unfold_script. simpl.
  repeat (case_match; simpl in *; simplify_eq; try (left; reflexivity);
          try (right; left; reflexivity); try (right; right; reflexivity)).
Qed.

Lemma results_page_cases inp s log :
  let o := show_results_interface inp s log in
  final_state o = s ∨ final_state o = no_keys.
Proof.
  intros o. subst o.
  unfold show_results_interface.
  unfold_script. unfold lift. unfold_script. simpl.
  repeat (first [case_display | case_match];
          simpl in *; simplify_eq; try (left; reflexivity);
          try (right; reflexivity)).
Qed.

(** ** The index invariant *)

Lemma with_answer_keeps cq selected s :
  with_defaults s = s →
  with_defaults (with_answer cq selected s) = with_answer cq selected s
  ∧ test_created (with_answer cq selected s) = test_created s
  ∧ current_question (with_answer cq selected s) = current_question s
  ∧ question_items (with_answer cq selected s) = question_items s.
Proof.
  intros Hdef. unfold with_answer.
  destruct selected as [[|c label]|]; [done | | done].
  destruct (student_answers s) as [answers|] eqn:Hanswers; [|done].
  split_and!; try reflexivity.
  destruct s as [[?|] [?|] [?|] [?|] [?|] [?|] [?|]]; done.
Qed.

(** Every run keeps the invariant, whatever the outside supplies. *)
Lemma run_keeps_index_invariant inp s :
  s = no_keys ∨ index_invariant s →
  final_state (run inp s) = no_keys ∨ index_invariant (final_state (run inp s)).
Proof.
  intros [-> | (Hdef & cq & Hcq & Hidx)]; rewrite run_stage.
  - right. change (stage_of no_keys) with Creating.
    change (with_defaults no_keys) with fresh_session.
    destruct (creation_page_cases inp fresh_session []) as [-> | [-> | [data ->]]];
      (split; [reflexivity |]; exists 0; split; [reflexivity | by left]).
  - destruct s as [[c|] [d|] [st|] [co|] [a|] [q|] [n|]]; try discriminate Hdef.
    simpl in Hcq. injection Hcq as ->.
    rewrite Hdef. unfold stage_of. simpl. destruct c; simpl.
    + destruct st; simpl; [destruct co; simpl |].
      * destruct (results_page_cases inp
                    (mk_session (Some true) (Some d) (Some true) (Some true)
                       (Some a) (Some cq) (Some n)) [])
          as [-> | ->]; [right | by left].
        split; [reflexivity |]. by exists cq.
      * set (s := mk_session (Some true) (Some d) (Some true) (Some false)
                    (Some a) (Some cq) (Some n)) in *.
        destruct (test_page_cases inp s [] cq a eq_refl eq_refl)
          as [-> | (items & Hitems & Hlt & Hnav)]; right.
        { split; [reflexivity |]. by exists cq. }
        destruct (with_answer_keeps cq (in_selected_answer inp) s eq_refl)
          as (Hdef' & Hcreated & Hcur & Hq).
        set (saved := with_answer cq (in_selected_answer inp) s) in *.
        assert (Hshape : ∃ c' d' st' co' a' q' n',
                   saved = mk_session (Some c') (Some d') (Some st') (Some co')
                             (Some a') (Some q') (Some n')).
        { destruct saved as [[?|] [?|] [?|] [?|] [?|] [?|] [?|]];
            try discriminate Hdef'. by eexists _, _, _, _, _, _, _. }
        destruct Hshape as (c' & d' & st' & co' & a' & q' & n' & Hsaved).
        rewrite Hsaved in Hcreated, Hcur, Hq. simpl in Hcreated, Hcur.
        injection Hcreated as ->. injection Hcur as ->.
        destruct Hnav as [(Hpos & _ & ->) | [(Hnext & _ & ->) | (Hlast & _ & ->)]];
          rewrite Hsaved; (split; [reflexivity |]); eexists; (split; [reflexivity |]);
          right; (split; [reflexivity |]); exists items;
          (split; [exact (eq_trans Hq Hitems) | lia]).
      * destruct (start_page_cases inp
                    (mk_session (Some true) (Some d) (Some false) (Some co)
                       (Some a) (Some cq) (Some n)) [])
          as [-> | [-> | ->]]; [right | right | by left].
        -- split; [reflexivity |]. by exists cq.
        -- split; [reflexivity |]. exists 0. split; [reflexivity | by left].
    + assert (cq = 0) as -> by (by destruct Hidx as [? | [? _]]).
      right.
      destruct (creation_page_cases inp
                  (mk_session (Some false) (Some d) (Some st) (Some co)
                     (Some a) (Some 0) (Some n)) [])
        as [-> | [-> | [data ->]]];
        (split; [reflexivity |]; exists 0; split; [reflexivity | by left]).
Qed.

Lemma reachable_index_invariant s :
  reachable s → s = no_keys ∨ index_invariant s.
Proof.
  induction 1 as [|inp s _ IH]; [by left |].
  by apply run_keeps_index_invariant.
Qed.

(** C4 (as amended): in every store a session can reach, while the test is
    in progress and the question set is not empty, the index of the current
    question is below the number of questions.  On a question the page can
    display (it has a text and a dict of options), a run does not raise;
    Previous at index 0, Next at the last index and Finish before the last
    index leave the store as it is; any other Previous or Next saves the
    selected answer and moves the index by one; Finish at the last index
    saves the selected answer and completes the test. *)
Theorem current_question_stays_in_range :
  (∀ s items,
     reachable s →
     stage_of s = InProgress →
     question_items s = Some items →
     items ≠ [] →
     ∃ cq, current_question s = Some cq ∧ cq < length items)
  ∧ (∀ inp s log data qs cq question text opts labels answers,
       test_data s = Some data →
       subscript data "questions" = Ok (JArr qs) →
       current_question s = Some cq →
       qs !! cq = Some question →
       subscript question "question_text" = Ok text →
       subscript question "options" = Ok opts →
       keys opts = Ok labels →
       student_answers s = Some answers →
       let o := show_test_interface inp s log in
       let saved := with_answer cq (in_selected_answer inp) s in
       raised o = None
       ∧ final_state o =
           match click inp with
           | Some BtnPrevious =>
               if decide (cq = 0) then s else set_current_question (cq - 1) saved
           | Some BtnNext =>
               if decide (cq = length qs - 1) then s
               else set_current_question (cq + 1) saved
           | Some BtnFinish =>
               if decide (cq = length qs - 1) then set_test_completed true saved
               else s
           | _ => s
           end
       ∧ question_items (final_state o) = Some qs
       ∧ ∃ cq',
           current_question (final_state o) = Some cq' ∧ cq' < length qs).
Proof.
  split.
  - intros s items Hreach Hstage Hitems Hne.
    destruct (reachable_index_invariant s Hreach)
      as [-> | (_ & cq & Hcq & [-> | (_ & items' & Hitems' & Hlt)])]; [done | |].
    + exists 0. split; [done |]. destruct items; [done | simpl; lia].
    + exists cq. split; [done |]. congruence.
  - intros inp s log data qs cq question text opts labels answers
      Hdata Hqs Hcq Hq Htext Hopts Hkeys Hanswers o saved.
    destruct (test_page_navigation inp s log data qs cq question text opts labels
                answers Hdata Hqs Hcq Hq Htext Hopts Hkeys Hanswers)
      as [Hraised Hfinal].
    fold o in Hraised, Hfinal. fold saved in Hfinal.
    assert (Hlt : cq < length qs) by (by eapply lookup_lt_Some).
    assert (Hitems : question_items s = Some qs).
    { unfold question_items. rewrite Hdata, Hqs. reflexivity. }
    assert (Hsaved : question_items saved = Some qs ∧ current_question saved = Some cq).
    { subst saved. unfold with_answer. rewrite Hanswers.
      by destruct (in_selected_answer inp) as [[|c label]|]. }
    destruct Hsaved as [Hsaved_items Hsaved_cq].
    split_and!; [done | done | |]; rewrite Hfinal.
    + destruct (click inp) as [[]|]; repeat case_decide; done.
    + destruct (click inp) as [[]|]; repeat case_decide;
        try (exists cq; by split); eexists; (split; [reflexivity | lia]).
Qed.

(** ** Properties of the reset *)

(** C3 (as amended): the start page and the results page, whenever they
    show the test, offer a reset button; pressing it deletes every key of
    the store (question set, answers and name among them), and the run that
    follows initialises the store afresh, in the creation stage.  On the
    results page the button comes after the report, whose warning and
    errors the run shows first.  The creation page and the test page have
    no such action: no run of them empties the store. *)
Theorem reset_from_ready_and_completed :
  (∀ inp s data questions items,
     stage_of s = Ready →
     test_data s = Some data →
     subscript data "questions" = Ok questions →
     elements_of questions = Ok items →
     click inp = Some BtnNewTest →
     run inp s = Stop Rerun no_keys [EvButton BtnStart; EvButton BtnNewTest])
  ∧ (∀ inp s data questions items score,
       stage_of s = Completed →
       test_data s = Some data →
       subscript data "questions" = Ok questions →
       elements_of questions = Ok items →
       calculate_score items (default ∅ (student_answers s)) = Ok score →
       Forall (λ entry, ∃ fields, options entry = JObj fields) (results score) →
       click inp = Some BtnAnotherTest →
       run inp s
       = Stop Rerun no_keys
           (report_messages score (default "" (student_name s))
            ++ [EvButton BtnAnotherTest]))
  ∧ (∀ inp,
       click inp = None →
       final_state (run inp no_keys) = fresh_session
       ∧ ended (run inp no_keys) = None)
  ∧ (stage_of fresh_session = Creating
     ∧ test_data fresh_session = Some JNull
     ∧ student_answers fresh_session = Some ∅
     ∧ current_question fresh_session = Some 0
     ∧ student_name fresh_session = Some "")
  ∧ (∀ inp s,
       stage_of s = Creating ∨ stage_of s = InProgress →
       final_state (run inp s) ≠ no_keys).
Proof.
  split; [| split; [| split; [| split]]].
  - intros inp s data questions items Hstage Hdata Hqs Hitems Hclick.
    rewrite run_stage, Hstage.
    assert (Htruthy : truthy data = true).
    { destruct data as [| | | | | |[|field fields]]; try done. }
    unfold show_test_start_interface.
    unfold_script. unfold lift. unfold_script. simpl.
    rewrite Hdata. simpl. rewrite Htruthy, Hqs. simpl. rewrite Hitems. simpl.
    rewrite Hclick. reflexivity.
  - intros inp s data questions items score Hstage Hdata Hqs Hitems Hscore
      Hshown Hclick.
    rewrite run_stage, Hstage.
    assert (Htruthy : truthy data = true).
    { destruct data as [| | | | | |[|field fields]]; try done. }
    unfold show_results_interface.
    unfold_script. unfold lift. unfold_script. simpl.
    rewrite Hdata. simpl. rewrite Htruthy, Hqs. simpl. rewrite Hitems. simpl.
    rewrite Hscore. simpl. rewrite (display_results_dicts _ _ _ _ Hshown).
    rewrite Hclick. reflexivity.
  - intros inp Hclick. rewrite run_stage.
    change (stage_of no_keys) with Creating.
    change (with_defaults no_keys) with fresh_session.
    unfold show_test_creation_interface.
    unfold_script. simpl. rewrite Hclick.
    by case_bool_decide.
  - by split_and!.
  - intros inp s Hstage Hempty.
    assert (Hkey : test_created (final_state (run inp s)) ≠ None);
      [| by rewrite Hempty in Hkey].
    rewrite run_stage. destruct Hstage as [-> | ->].
    + destruct (creation_page_cases inp (with_defaults s) [])
        as [-> | [-> | [data ->]]]; done.
    + destruct (test_page_cases inp (with_defaults s) []
                  (default 0 (current_question s))
                  (default ∅ (student_answers s)) eq_refl eq_refl)
        as [-> | (items & _ & _ & Hnav)]; [done |].
      destruct (with_answer_keeps (default 0 (current_question s))
                  (in_selected_answer inp) (with_defaults s) eq_refl)
        as (_ & Hcreated & _).
      destruct Hnav as [(_ & _ & ->) | [(_ & _ & ->) | (_ & _ & ->)]];
        simpl; by rewrite Hcreated.
Qed.

(** ** Further properties of the regular expression and of the prompt *)

Lemma upto_last_close_none_inv text :
  upto_last_close text = None → occurs "}" text = false.
Proof using Type.
  induction text as [|c text IH]; simpl; [done |].
  destruct (upto_last_close text); [done |].
  destruct (Ascii.eqb c "}"); [done |]. intros _. by apply IH.
Qed.

Lemma from_first_open_some text matched :
  from_first_open text = Some matched →
  ∃ pre rest,
    text = pre +:+ matched ∧ matched = String "{" rest ∧ occurs "{" pre = false.
Proof using Type.
  induction text as [|c text IH]; simpl; [done |].
  destruct (Ascii.eqb_spec c "{") as [-> | Hc].
  - intros [= <-]. by exists "", text.
  - intros Hrest. destruct (IH Hrest) as (pre & rest & -> & -> & Hpre).
    exists (String c pre), rest. split_and!; [done | done |].
    simpl. rewrite Hpre. by apply Ascii.eqb_neq in Hc as ->.
Qed.

Lemma upto_last_close_some text matched :
  upto_last_close text = Some matched →
  ∃ body post,
    matched = body +:+ "}" ∧ text = body +:+ String "}" post
    ∧ occurs "}" post = false.
Proof using Type.
  revert matched. induction text as [|c text IH]; intros matched; simpl; [done |].
  destruct (upto_last_close text) as [inner|] eqn:Hinner.
  - intros [= <-]. destruct (IH inner eq_refl) as (body & post & -> & -> & Hpost).
    by exists (String c body), post.
  - destruct (Ascii.eqb_spec c "}") as [-> | Hc]; [| done].
    intros [= <-]. exists "", text. split_and!; [done | done |].
    by apply upto_last_close_none_inv.
Qed.

(** X1: what [re.search] finds.  The match is a piece of the text that
    starts with an opening brace and ends with a closing brace, with no
    opening brace before it and no closing brace after it, and every such
    piece is found; there is no match exactly when the text has no opening
    brace, or has no closing brace after its first opening brace. *)
Theorem search_braces_characterised (text : string) :
  (∀ span,
     search_braces text = Some span
     ↔ ∃ pre body post,
         text = pre +:+ span +:+ post
         ∧ span = "{" +:+ body +:+ "}"
         ∧ occurs "{" pre = false
         ∧ occurs "}" post = false)
  ∧ (search_braces text = None
     ↔ occurs "{" text = false
       ∨ ∃ pre rest,
           text = pre +:+ String "{" rest
           ∧ occurs "{" pre = false
           ∧ occurs "}" rest = false).
Proof using Type.
  split.
  - intros span. split.
    + unfold search_braces.
      destruct (from_first_open text) as [matched|] eqn:Hopen; [|done]. simpl.
      intros Hclose.
      destruct (from_first_open_some _ _ Hopen) as (pre & rest & -> & -> & Hpre).
      destruct (upto_last_close_some _ _ Hclose) as (body & post & -> & Hrest & Hpost).
      destruct body as [|c body].
      { by injection Hrest. }
      change (String c body +:+ String "}" post)
        with (String c (body +:+ String "}" post)) in Hrest.
      injection Hrest as <- ->.
      exists pre, body, post. split_and!; [| done | done | done].
      change ("{" +:+ body +:+ "}") with (String "{" body +:+ "}").
      change (String "{" (body +:+ String "}" post))
        with (String "{" body +:+ String "}" post).
      by rewrite append_close.
    + intros (pre & body & post & -> & -> & Hpre & Hpost).
      by apply search_braces_span.
  - split.
    + unfold search_braces.
      destruct (from_first_open text) as [matched|] eqn:Hopen; simpl.
      * intros Hclose. right.
        destruct (from_first_open_some _ _ Hopen) as (pre & rest & -> & -> & Hpre).
        exists pre, rest. split_and!; [done | done |].
        apply upto_last_close_none_inv in Hclose. exact Hclose.
      * intros _. left. clear -Hopen.
        induction text as [|c text IH]; simpl in *; [done |].
        destruct (Ascii.eqb c "{"); [done |]. by apply IH.
    + intros [Hnone | (pre & rest & -> & Hpre & Hrest)].
      * by apply search_braces_no_open.
      * unfold search_braces. rewrite from_first_open_skips by done. simpl.
        by rewrite upto_last_close_none.
Qed.

Lemma describe_topics_unknown_subject subject topic rest acc :
  subject ≫= (λ name, dict_get name syllabus) = None →
  describe_topics subject (topic :: rest) acc
  = Raise (KeyError (format_subject subject)).
Proof. intros Hsub. simpl. by rewrite Hsub. Qed.

(** X2: [create_openai_prompt] builds a prompt whenever no topic is passed
    or the subject is a key of the syllabus; with at least one topic and a
    subject that is not in the syllabus it raises [KeyError] on the
    subject. *)
Theorem create_openai_prompt_key_error (subject : option string)
    (topics : list string) (info : string) (n : nat) (level : string) :
  (topics = [] →
   ∃ prompt, create_openai_prompt subject topics info n level = Ok prompt)
  ∧ (is_Some (subject ≫= λ name, dict_get name syllabus) →
     ∃ prompt, create_openai_prompt subject topics info n level = Ok prompt)
  ∧ (topics ≠ [] →
     subject ≫= (λ name, dict_get name syllabus) = None →
     create_openai_prompt subject topics info n level
     = Raise (KeyError (format_subject subject))).
Proof.
  split_and!.
  - intros ->. unfold create_openai_prompt. simpl describe_topics.
    eexists. reflexivity.
  - intros [subject_topics Hsub]. destruct subject as [name|]; [|done].
    simpl in Hsub. unfold create_openai_prompt.
    destruct (describe_topics_known name subject_topics topics "" Hsub) as [text ->].
    eexists. reflexivity.
  - intros Htopics Hsub. destruct topics as [|topic rest]; [done |].
    unfold create_openai_prompt.
    by rewrite describe_topics_unknown_subject.
Qed.

Lemma describe_topics_filter name subject_topics topics acc :
  dict_get name syllabus = Some subject_topics →
  describe_topics (Some name)
    (filter (λ topic, is_Some (dict_get topic subject_topics)) topics) acc
  = describe_topics (Some name) topics acc.
Proof.
  intros Hsub. revert acc.
  induction topics as [|topic rest IH]; intros acc; [done |].
  rewrite filter_cons. simpl describe_topics at 2. rewrite Hsub. simpl.
  destruct (dict_get topic subject_topics) as [[description past]|] eqn:Htopic.
  - rewrite decide_True by done. simpl. rewrite Hsub. simpl. rewrite Htopic.
    apply IH.
  - rewrite decide_False by (by intros [? ?]). apply IH.
Qed.

(** X3: a selected topic that the subject's table does not hold leaves no
    trace in the prompt: the prompt is the one built from the topics the
    table holds, in the order they were passed. *)
Theorem create_openai_prompt_skips_unknown_topics (name : string)
    (subject_topics : list (string * (string * string)))
    (topics : list string) (info : string) (n : nat) (level : string) :
  dict_get name syllabus = Some subject_topics →
  create_openai_prompt (Some name) topics info n level
  = create_openai_prompt (Some name)
      (filter (λ topic, is_Some (dict_get topic subject_topics)) topics)
      info n level.
Proof.
  intros Hsub. unfold create_openai_prompt.
  by rewrite (describe_topics_filter name subject_topics topics "" Hsub).
Qed.

(** ** Further properties of the creation page *)

Lemma requests_app log1 log2 :
  requests (log1 ++ log2) = requests log1 ++ requests log2.
Proof using Type.
  induction log1 as [|[] log1 IH]; simpl; [done | done | done | done |].
  by rewrite IH.
Qed.

Lemma parse_mcq_response_requests text returned :
  parse_mcq_response text = Ok returned → requests returned.2 = [].
Proof.
  unfold parse_mcq_response.
  destruct (search_braces text); [destruct (json_loads _) |];
    intros; by simplify_eq.
Qed.

(** A failed parse gives [None], which is not truthy. *)
Lemma parse_mcq_response_truthy text returned :
  parse_mcq_response text = Ok returned →
  truthy returned.1 = true → returned.2 = [].
Proof.
  unfold parse_mcq_response.
  destruct (search_braces text); [destruct (json_loads _) |];
    intros; by simplify_eq.
Qed.

(** The page when the form is not accepted. *)
Lemma creation_page_rejected inp s log :
  form_accepted inp = false →
  let o := show_test_creation_interface inp s log in
  final_state o = s
  ∧ raised o = None
  ∧ ∃ added, final_log o = log ++ added ∧ requests added = [].
Proof.
  intros Hrej o. subst o. unfold form_accepted in Hrej.
  unfold show_test_creation_interface. unfold_script. simpl.
  assert (Hadded : ∀ (l added : list event),
            requests added = [] →
            ∃ added', l ++ added = l ++ added' ∧ requests added' = [])
    by (intros l added ?; by exists added).
  destruct (bool_decide (get_topics_for_subject (in_selected_subject inp) = []));
    simpl in *;
    destruct (bool_decide (click inp = Some BtnCreate)); simpl in *;
    try (split_and!; [done | done |]; rewrite <- ?app_assoc; by apply Hadded);
    destruct (String.eqb (in_student_name inp) ""); simpl in *;
    try (split_and!; [done | done |]; rewrite <- ?app_assoc; by apply Hadded);
    destruct (String.eqb (in_api_key inp) ""); simpl in *;
    try (split_and!; [done | done |]; rewrite <- ?app_assoc; by apply Hadded).
  rewrite negb_false_iff in Hrej. rewrite Hrej. simpl.
  split_and!; [done | done |]. rewrite <- ?app_assoc. by apply Hadded.
Qed.

(** The page when the form is accepted: the name is stored, the prompt is
    built, one request is made, and what follows depends on the answer. *)
Lemma creation_page_accepted inp s log :
  form_accepted inp = true →
  ∃ prompt,
    create_openai_prompt (in_selected_subject inp) (in_selected_topics inp)
      (in_additional_info inp) (in_num_questions inp) (in_difficulty_level inp)
    = Ok prompt
    ∧ show_test_creation_interface inp s log =
      let named := set_student_name (in_student_name inp) s in
      let asked :=
        log ++ [EvButton BtnCreate; EvGenerate (in_api_key inp) prompt] in
      match in_completion inp with
      | Content (Some (String c text)) =>
          match parse_mcq_response (String c text) with
          | Ok parsed =>
              if truthy parsed.1 then
                Stop Rerun (set_test_created true (set_test_data parsed.1 named))
                  (asked ++ parsed.2)
              else
                Next () named
                  (asked ++ parsed.2
                   ++ [EvError "Failed to create test. Please try again."])
          | Raise e => Stop (Raised e) named asked
          end
      | Content _ =>
          Next () named
            (asked
             ++ [EvError "Failed to generate questions. Please check your API key and try again."])
      | Failure msg =>
          Next () named
            (asked
             ++ [EvError ("Error generating questions: " +:+ msg);
                 EvError "Failed to generate questions. Please check your API key and try again."])
      end.
Proof.
  unfold form_accepted. rewrite !andb_true_iff, !negb_true_iff.
  intros [[[[Hclick Hname] Hkey] Htopics] Hsel].
  apply bool_decide_eq_false_1 in Htopics.
  destruct (create_openai_prompt_known (in_selected_subject inp)
              (in_selected_topics inp) (in_additional_info inp)
              (in_num_questions inp) (in_difficulty_level inp) Htopics)
    as [prompt Hprompt].
  exists prompt. split; [exact Hprompt |].
  unfold show_test_creation_interface. unfold_script. simpl.
  rewrite (bool_decide_eq_false_2 _ Htopics). simpl.
  rewrite Hclick, Hname, Hkey, Hsel, Hprompt. simpl.
  unfold generate_mcqs, run_parser. unfold_script. simpl.
  destruct (in_completion inp) as [[[|c text]|]|msg]; simpl;
    try (by rewrite <- !app_assoc).
  destruct (parse_mcq_response (String c text)) as [parsed|e]; simpl;
    [| by rewrite <- !app_assoc].
  destruct (truthy parsed.1); by rewrite <- !app_assoc.
Qed.

Lemma parse_mcq_response_raises text e :
  parse_mcq_response text = Raise e
  ↔ ∃ span, search_braces text = Some span ∧ json_loads span = Uncaught e.
Proof.
  unfold parse_mcq_response. split.
  - destruct (search_braces text) as [span|]; [| done].
    destruct (json_loads span) eqn:Hdec; try done.
    intros [= <-]. by exists span.
  - intros (span & -> & ->). reflexivity.
Qed.

(** X4: the creation page raises what [json.loads] raises besides
    [json.JSONDecodeError], and nothing else.  A run raises [e] exactly when
    the form is accepted, the completion service answered with a text, and
    [json.loads] raises [e] on the span from the first opening brace to the
    last closing brace of that text.  The run has then stored the name and
    made its request, and nothing more.  In particular the [KeyError] of
    the prompt builder cannot occur there (a topic can only be selected for
    a subject of the syllabus), and with a decoder that raises nothing but
    [json.JSONDecodeError] the page never raises. *)
Theorem creation_page_raises_what_json_loads_raises (inp : user_input)
    (s : session_state) (log : list event) :
  let page := show_test_creation_interface inp s log in
  (∀ e,
     raised page = Some e
     ↔ form_accepted inp = true
       ∧ ∃ text span,
           in_completion inp = Content (Some text)
           ∧ search_braces text = Some span
           ∧ json_loads span = Uncaught e)
  ∧ (is_Some (raised page) →
     final_state page = set_student_name (in_student_name inp) s
     ∧ ∃ prompt,
         final_log page
         = log ++ [EvButton BtnCreate; EvGenerate (in_api_key inp) prompt])
  ∧ ((∀ span e, json_loads span ≠ Uncaught e) → raised page = None).
Proof.
  intros page.
  assert (Hraised : ∀ e,
            raised page = Some e
            ↔ form_accepted inp = true
              ∧ ∃ text span,
                  in_completion inp = Content (Some text)
                  ∧ search_braces text = Some span
                  ∧ json_loads span = Uncaught e).
  { intros e. subst page. destruct (form_accepted inp) eqn:Hform.
    - destruct (creation_page_accepted inp s log Hform) as (prompt & _ & ->).
      destruct (in_completion inp) as [[[|c text]|]|msg]; simpl.
      + split; [done |]. by intros (_ & text & span & [= <-] & Hspan & _).
      + destruct (parse_mcq_response (String c text)) as [parsed|e'] eqn:Hparse.
        * split; [by case_match |].
          intros (_ & text' & span & [= <-] & Hspan & Hdec).
          assert (Hraise : parse_mcq_response (String c text) = Raise e)
            by (apply parse_mcq_response_raises; by exists span).
          congruence.
        * simpl. apply parse_mcq_response_raises in Hparse as (span & Hspan & Hdec).
          split.
          -- intros [= <-]. split; [done |]. by exists (String c text), span.
          -- intros (_ & text' & span' & [= <-] & Hspan' & Hdec'). congruence.
      + split; [done |]. by intros (_ & text & span & ? & _).
      + split; [done |]. by intros (_ & text & span & ? & _).
    - destruct (creation_page_rejected inp s log Hform) as (_ & -> & _).
      split; [done | by intros [? _]]. }
  split_and!.
  - exact Hraised.
  - intros [e He]. apply Hraised in He as (Hform & text & span & Hanswer & Hspan & Hdec).
    subst page.
    destruct (creation_page_accepted inp s log Hform) as (prompt & _ & ->).
    rewrite Hanswer.
    assert (Hraise : parse_mcq_response text = Raise e)
      by (apply parse_mcq_response_raises; by exists span).
    destruct text as [|c text]; [done |].
    simpl. rewrite Hraise. simpl. split; [done | by exists prompt].
  - intros Hcaught.
    assert (Hnone : ∀ e, raised page ≠ Some e).
    { intros e He. apply Hraised in He as (_ & text & span & _ & _ & Hdec).
      by destruct (Hcaught span e). }
    destruct (raised page) as [e|]; [by destruct (Hnone e) | done].
Qed.

(** X5: a run of the creation page makes one request to the completion
    service when the form is accepted, with the submitted API key and the
    prompt built from the form, and none otherwise; it never asks twice. *)
Theorem creation_page_requests (inp : user_input) (s : session_state)
    (log : list event) :
  requests (final_log (show_test_creation_interface inp s log))
  = requests log
    ++ (if form_accepted inp then
          match
            create_openai_prompt (in_selected_subject inp) (in_selected_topics inp)
              (in_additional_info inp) (in_num_questions inp)
              (in_difficulty_level inp)
          with
          | Ok prompt => [(in_api_key inp, prompt)]
          | Raise _ => []
          end
        else []).
Proof.
  destruct (form_accepted inp) eqn:Hform.
  - destruct (creation_page_accepted inp s log Hform) as (prompt & -> & ->).
    destruct (in_completion inp) as [[[|c text]|]|msg]; simpl;
      try (destruct (parse_mcq_response (String c text)) as [parsed|e] eqn:Hparse;
           [destruct (truthy parsed.1) |]); simpl;
      rewrite !requests_app, ?(parse_mcq_response_requests _ _ Hparse); simpl;
      by rewrite ?app_nil_r.
  - destruct (creation_page_rejected inp s log Hform)
      as (_ & _ & added & -> & Hadded).
    by rewrite requests_app, Hadded.
Qed.

(** X6: when the form is accepted and the span of the answer decodes to a
    document that is truthy, the run stores the name, the document and the
    created flag, shows no error, and ends in a rerun; from a fresh session
    the stage is then [Ready]. *)
Theorem creation_page_creates_test (inp : user_input) (s : session_state)
    (log : list event) (text span : string) (data : json) :
  form_accepted inp = true →
  in_completion inp = Content (Some text) →
  search_braces text = Some span →
  json_loads span = Decoded data →
  truthy data = true →
  ∃ prompt,
    create_openai_prompt (in_selected_subject inp) (in_selected_topics inp)
      (in_additional_info inp) (in_num_questions inp) (in_difficulty_level inp)
    = Ok prompt
    ∧ show_test_creation_interface inp s log
      = Stop Rerun
          (set_test_created true
             (set_test_data data (set_student_name (in_student_name inp) s)))
          (log ++ [EvButton BtnCreate; EvGenerate (in_api_key inp) prompt])
    ∧ (test_started s = Some false →
       stage_of
         (set_test_created true
            (set_test_data data (set_student_name (in_student_name inp) s)))
       = Ready).
Proof.
  intros Hform Hanswer Hspan Hdec Htruthy.
  destruct (creation_page_accepted inp s log Hform) as (prompt & Hprompt & ->).
  exists prompt. split; [exact Hprompt |]. split.
  - rewrite Hanswer.
    assert (Hparse : parse_mcq_response text = Ok (data, []))
      by (unfold parse_mcq_response; by rewrite Hspan, Hdec).
    destruct text as [|c text]; [done |].
    simpl. rewrite Hparse. simpl. rewrite Htruthy. by rewrite app_nil_r.
  - intros Hstarted. unfold stage_of. simpl. by rewrite Hstarted.
Qed.

(** ** Further properties of the start page *)

(** X7: the start page.  With a test whose [questions] can be counted, a
    press of Start sets the started flag and puts the index at 0, whatever
    it was, and changes nothing else.  With no test data the page draws no
    button, so that no press has an effect.  With test data that has no
    [questions] the page raises [KeyError]. *)
Theorem start_page_behaviour (inp : user_input) (s : session_state)
    (log : list event) (name : string) (data : json) :
  student_name s = Some name →
  test_data s = Some data →
  (∀ questions items,
     subscript data "questions" = Ok questions →
     elements_of questions = Ok items →
     click inp = Some BtnStart →
     show_test_start_interface inp s log
     = Stop Rerun (set_current_question 0 (set_test_started true s))
         (log ++ [EvButton BtnStart]))
  ∧ (truthy data = false →
     show_test_start_interface inp s log = Next () s log)
  ∧ (∀ fields,
       data = JObj fields →
       fields ≠ [] →
       dict_get "questions" fields = None →
       show_test_start_interface inp s log
       = Stop (Raised (KeyError "questions")) s log).
Proof using Type.
  intros Hname Hdata.
  unfold show_test_start_interface. unfold_script. unfold lift. unfold_script.
  simpl. rewrite Hname, Hdata. simpl. split_and!.
  - intros questions items Hqs Hitems Hclick.
    assert (Htruthy : truthy data = true).
    { destruct data as [| | | | | |[|field fields]]; try done. }
    rewrite Htruthy, Hqs. simpl. rewrite Hitems. simpl. by rewrite Hclick.
  - by intros ->.
  - intros fields -> Hne Hmissing. simpl.
    rewrite bool_decide_eq_false_2 by done. simpl. by rewrite Hmissing.
Qed.

(** ** The session along its runs *)

Lemma creation_page_cases_truthy inp s log :
  let o := show_test_creation_interface inp s log in
  final_state o = s
  ∨ final_state o = set_student_name (in_student_name inp) s
  ∨ ∃ data,
      truthy data = true
      ∧ final_state o
        = set_test_created true
            (set_test_data data (set_student_name (in_student_name inp) s)).
Proof.
  intros o. subst o. destruct (form_accepted inp) eqn:Hform.
  - destruct (creation_page_accepted inp s log Hform) as (prompt & _ & ->).
    destruct (in_completion inp) as [[[|c text]|]|msg]; simpl;
      try (right; left; reflexivity).
    destruct (parse_mcq_response (String c text)) as [parsed|e];
      [| right; by left].
    destruct (truthy parsed.1) eqn:Htruthy.
    + right. right. by eexists.
    + right. by left.
  - left. by destruct (creation_page_rejected inp s log Hform) as (? & _).
Qed.

Lemma start_page_cases_items inp s log :
  let o := show_test_start_interface inp s log in
  final_state o = s
  ∨ (click inp = Some BtnStart
     ∧ (∃ items, question_items s = Some items)
     ∧ final_state o = set_current_question 0 (set_test_started true s))
  ∨ (click inp = Some BtnNewTest ∧ final_state o = no_keys).
Proof using Type.
  intros o. subst o.
  unfold show_test_start_interface, question_items.
  unfold_script. unfold lift. unfold_script. simpl.
  repeat (case_match; simpl in *; simplify_eq; try (left; reflexivity)).
  all: repeat match goal with
         | H : bool_decide _ = true |- _ => apply bool_decide_eq_true_1 in H
         | H : bool_decide _ = false |- _ => apply bool_decide_eq_false_1 in H
         end.
  - right. left. split_and!; [done | by eexists | done].
  - right. by right.
Qed.

Lemma results_page_cases_click inp s log :
  let o := show_results_interface inp s log in
  final_state o = s
  ∨ (click inp = Some BtnAnotherTest ∧ final_state o = no_keys).
Proof using Type.
  intros o. subst o.
  unfold show_results_interface.
  unfold_script. unfold lift. unfold_script. simpl.
  repeat (first [case_display | case_match];
          simpl in *; simplify_eq; try (left; reflexivity)).
  all: repeat match goal with
         | H : bool_decide _ = true |- _ => apply bool_decide_eq_true_1 in H
         end.
  all: by right.
Qed.

Lemma answers_in_range_insert answers n number label :
  answers_in_range answers n →
  label ≠ "" →
  1 ≤ number ≤ n →
  answers_in_range (<[question_key number := label]> answers) n.
Proof using Type.
  intros Hrange Hlabel Hnumber key stored.
  destruct (decide (key = question_key number)) as [-> | Hkey].
  - rewrite lookup_insert_eq. intros [= <-]. split; [done |]. by exists number.
  - rewrite lookup_insert_ne by done. apply Hrange.
Qed.

Lemma session_invariant_fresh name :
  session_invariant (set_student_name name fresh_session).
Proof using Type.
  exists false, JNull, false, false, ∅, 0, name.
  split_and!; [reflexivity | done | done | done | done].
Qed.

(** Once the test is started, moving the index or completing the test
    keeps the invariant, and so does saving an answer for a question of the
    test. *)
Lemma session_invariant_started s :
  session_invariant s →
  test_started s = Some true →
  (∀ k, session_invariant (set_current_question k s))
  ∧ (∀ b, session_invariant (set_test_completed b s))
  ∧ (∀ cq selected items,
       question_items s = Some items →
       cq < length items →
       session_invariant (with_answer cq selected s)
       ∧ test_started (with_answer cq selected s) = Some true).
Proof using Type.
  intros (created & data & started & completed & answers & cq0 & name
          & -> & Hcreated & Htruthy & Hbefore & Hafter) [= ->].
  split_and!.
  - intros k. exists created, data, true, completed, answers, k, name.
    split_and!; [reflexivity | done | done | done | done].
  - intros b. exists created, data, true, b, answers, cq0, name.
    split_and!; [reflexivity | done | done | done | done].
  - intros cq selected items Hitems Hlt. unfold with_answer. simpl.
    destruct selected as [[|c label]|]; simpl;
      try (split; [| done];
           exists created, data, true, completed, answers, cq0, name;
           split_and!; [reflexivity | done | done | done | done]).
    split; [| done].
    exists created, data, true, completed,
      (<[question_key (cq + 1) := String c label]> answers), cq0, name.
    split_and!; [reflexivity | done | done | done |].
    intros _. destruct (Hafter eq_refl) as (items' & Hitems' & Hrange).
    exists items'. split; [exact Hitems' |].
    apply answers_in_range_insert; [done | done |].
    assert (items' = items) as -> by congruence. lia.
Qed.

(** Every run keeps the invariant, whatever the outside supplies. *)
Lemma run_keeps_session_invariant inp s :
  s = no_keys ∨ session_invariant s →
  final_state (run inp s) = no_keys ∨ session_invariant (final_state (run inp s)).
Proof.
  intros [-> | Hinv]; rewrite run_stage.
  - right. change (stage_of no_keys) with Creating.
    change (with_defaults no_keys) with fresh_session.
    destruct (creation_page_cases_truthy inp fresh_session [])
      as [-> | [-> | (data & Htruthy & ->)]].
    + apply (session_invariant_fresh "").
    + apply session_invariant_fresh.
    + exists true, data, false, false, ∅, 0, (in_student_name inp).
      split_and!; [reflexivity | done | done | done | done].
  - pose proof Hinv as (created & data & started & completed & answers & cq & name
                        & Hs & Hcreated & Htruthy & Hbefore & Hafter).
    assert (Hdef : with_defaults s = s) by (by subst s).
    rewrite Hdef.
    assert (Hstage : stage_of s =
              if negb created then Creating
              else if negb started then Ready
              else if negb completed then InProgress else Completed)
      by (by subst s).
    rewrite Hstage. destruct created; simpl.
    + destruct started; simpl; [destruct completed; simpl |].
      * destruct (results_page_cases inp s []) as [-> | ->]; [by right | by left].
      * destruct (test_page_cases inp s [] cq answers) as [-> | (items & Hitems & Hlt & Hnav)];
          [by subst s | by subst s | by right |].
        right.
        assert (Hstarted : test_started s = Some true) by (by subst s).
        destruct (session_invariant_started s Hinv Hstarted) as (_ & _ & Hsave).
        destruct (Hsave cq (in_selected_answer inp) items Hitems Hlt)
          as [Hsaved Hsaved_started].
        destruct (session_invariant_started _ Hsaved Hsaved_started)
          as (Hmove & Hcomplete & _).
        destruct Hnav as [(_ & _ & ->) | [(_ & _ & ->) | (_ & _ & ->)]];
          [apply Hmove | apply Hmove | apply Hcomplete].
      * destruct (start_page_cases_items inp s [])
          as [-> | [(_ & [items Hitems] & ->) | (_ & ->)]];
          [by right | right | by left].
        destruct (Hbefore eq_refl) as (-> & -> & ->). subst s.
        exists true, data, true, false, ∅, 0, name.
        split_and!; [reflexivity | done | done | done |].
        intros _. exists items. split; [exact Hitems |].
        intros key label. by rewrite lookup_empty.
    + destruct (Hcreated eq_refl) as [-> ->].
      destruct (Hbefore eq_refl) as (-> & -> & ->). subst s. right.
      destruct (creation_page_cases_truthy inp
                  (mk_session (Some false) (Some JNull) (Some false) (Some false)
                     (Some ∅) (Some 0) (Some name)) [])
        as [-> | [-> | (data & Hdata & ->)]].
      * apply (session_invariant_fresh name).
      * apply (session_invariant_fresh (in_student_name inp)).
      * exists true, data, false, false, ∅, 0, (in_student_name inp).
        split_and!; [reflexivity | done | done | done | done].
Qed.

Lemma reachable_session_invariant s :
  reachable s → s = no_keys ∨ session_invariant s.
Proof.
  induction 1 as [|inp s _ IH]; [by left |].
  by apply run_keeps_session_invariant.
Qed.

(** X8: until a test is created, a session holds nothing but the name of
    the last accepted form: its store has no key at all, or it is the store
    [main] initialises with [student_name] set; there is no test data, no
    answer and the index is 0. *)
Theorem creating_stage_holds_only_the_name (s : session_state) :
  reachable s →
  stage_of s = Creating →
  s = no_keys ∨ ∃ name, s = set_student_name name fresh_session.
Proof.
  intros Hreach Hstage.
  destruct (reachable_session_invariant s Hreach)
    as [-> | (created & data & started & completed & answers & cq & name
              & -> & Hcreated & _ & Hbefore & _)]; [by left |].
  right. exists name. destruct created; [by destruct started, completed |].
  destruct (Hcreated eq_refl) as [-> ->].
  by destruct (Hbefore eq_refl) as (-> & -> & ->).
Qed.

(** X9: a session whose test is created but not started holds test data
    that is truthy, no answer, and the index 0. *)
Theorem ready_stage_holds_unanswered_test (s : session_state) :
  reachable s →
  stage_of s = Ready →
  ∃ data name,
    truthy data = true
    ∧ s = mk_session (Some true) (Some data) (Some false) (Some false)
            (Some ∅) (Some 0) (Some name).
Proof.
  intros Hreach Hstage.
  destruct (reachable_session_invariant s Hreach)
    as [-> | (created & data & started & completed & answers & cq & name
              & -> & _ & Htruthy & Hbefore & _)]; [done |].
  destruct created; [| done]. destruct started; [by destruct completed |].
  destruct (Hbefore eq_refl) as (-> & -> & ->).
  exists data, name. split; [by apply Htruthy | done].
Qed.

(** X10: every answer a session holds is a label that is not empty, stored
    under the key [q_n] of a question of the test, 1 <= n <= number of
    questions; and once the test is started its data is truthy and its
    questions can be counted. *)
Theorem answers_belong_to_questions (s : session_state) :
  reachable s →
  (∀ answers key label,
     student_answers s = Some answers →
     answers !! key = Some label →
     label ≠ ""
     ∧ ∃ items number,
         question_items s = Some items
         ∧ key = question_key number
         ∧ 1 ≤ number ≤ length items)
  ∧ (stage_of s = InProgress ∨ stage_of s = Completed →
     ∃ data items,
       test_data s = Some data
       ∧ truthy data = true
       ∧ question_items s = Some items).
Proof.
  intros Hreach.
  destruct (reachable_session_invariant s Hreach)
    as [-> | (created & data & started & completed & stored & cq & name
              & -> & Hcreated & Htruthy & Hbefore & Hafter)].
  - split; [done | by intros [? | ?]].
  - split.
    + intros answers key label [= <-] Hkey. destruct started.
      * destruct (Hafter eq_refl) as (items & Hitems & Hrange).
        destruct (Hrange key label Hkey) as (Hlabel & number & -> & Hnumber).
        split; [done |]. by exists items, number.
      * destruct (Hbefore eq_refl) as (_ & -> & _). by rewrite lookup_empty in Hkey.
    + intros Hstage.
      assert (created = true ∧ started = true) as [-> ->]
        by (destruct created, started, completed, Hstage; done).
      destruct (Hafter eq_refl) as (items & Hitems & _).
      exists data, items. split_and!; [done | by apply Htruthy | done].
Qed.

Lemma with_answer_flags cq selected s :
  test_created (with_answer cq selected s) = test_created s
  ∧ test_data (with_answer cq selected s) = test_data s
  ∧ test_started (with_answer cq selected s) = test_started s
  ∧ test_completed (with_answer cq selected s) = test_completed s
  ∧ student_name (with_answer cq selected s) = student_name s.
Proof using Type.
  unfold with_answer.
  by destruct selected as [[|c label]|], (student_answers s).
Qed.

(** X11: a run never takes a session backwards and never skips a stage: it
    leaves the stage as it is, moves it to the next one, or (on the start
    and results pages only) empties the store. *)
Theorem stage_moves_forward (inp : user_input) (s : session_state) :
  reachable s →
  let s' := final_state (run inp s) in
  stage_of s' = stage_of s
  ∨ stage_of s' = next_stage (stage_of s)
  ∨ (s' = no_keys ∧ (stage_of s = Ready ∨ stage_of s = Completed)).
Proof.
  intros Hreach s'. subst s'. rewrite run_stage.
  destruct (reachable_session_invariant s Hreach)
    as [-> | (created & data & started & completed & answers & cq & name
              & -> & Hcreated & _ & Hbefore & _)].
  - change (stage_of no_keys) with Creating.
    change (with_defaults no_keys) with fresh_session.
    destruct (creation_page_cases_truthy inp fresh_session [])
      as [-> | [-> | (data & _ & ->)]]; [by left | by left | right; by left].
  - set (s := mk_session (Some created) (Some data) (Some started) (Some completed)
                (Some answers) (Some cq) (Some name)).
    change (with_defaults s) with s.
    destruct created.
    + destruct started; [destruct completed |].
      * change (stage_of s) with Completed.
        destruct (results_page_cases inp s []) as [-> | ->];
          [by left | right; right; by split; [| right]].
      * change (stage_of s) with InProgress.
        destruct (test_page_cases inp s [] cq answers eq_refl eq_refl)
          as [-> | (items & _ & _ & Hnav)]; [by left |].
        destruct (with_answer_flags cq (in_selected_answer inp) s)
          as (Hc & _ & Hst & Hco & _).
        destruct Hnav as [(_ & _ & ->) | [(_ & _ & ->) | (_ & _ & ->)]];
          unfold stage_of; simpl; rewrite Hc, Hst, ?Hco; simpl;
          [by left | by left | right; by left].
      * destruct (Hbefore eq_refl) as (-> & _ & _).
        change (stage_of s) with Ready.
        destruct (start_page_cases_items inp s []) as [-> | [(_ & _ & ->) | (_ & ->)]];
          [by left | right; by left | right; right; by split; [| left]].
    + destruct (Hcreated eq_refl) as [_ ->].
      destruct (Hbefore eq_refl) as (-> & _ & _).
      change (stage_of s) with Creating.
      destruct (creation_page_cases_truthy inp s [])
        as [-> | [-> | (data' & _ & ->)]]; [by left | by left | right; by left].
Qed.

(** X12: once a test is created, no run changes the test data or the
    student name: they stay as they are until a reset deletes every key. *)
Theorem test_data_kept_after_creation (inp : user_input) (s : session_state) :
  reachable s →
  stage_of s ≠ Creating →
  let s' := final_state (run inp s) in
  s' = no_keys
  ∨ (test_data s' = test_data s
     ∧ student_name s' = student_name s
     ∧ test_created s' = Some true).
Proof.
  intros Hreach Hstage s'. subst s'. rewrite run_stage.
  destruct (reachable_session_invariant s Hreach)
    as [-> | (created & data & started & completed & answers & cq & name
              & -> & _)]; [done |].
  set (s := mk_session (Some created) (Some data) (Some started) (Some completed)
              (Some answers) (Some cq) (Some name)) in *.
  change (with_defaults s) with s.
  destruct created; [| done].
  destruct started; [destruct completed |].
  - change (stage_of s) with Completed.
    destruct (results_page_cases inp s []) as [-> | ->]; [by right | by left].
  - change (stage_of s) with InProgress.
    destruct (test_page_cases inp s [] cq answers eq_refl eq_refl)
      as [-> | (items & _ & _ & Hnav)]; [by right |].
    destruct (with_answer_flags cq (in_selected_answer inp) s)
      as (Hc & Hd & _ & _ & Hn).
    right.
    destruct Hnav as [(_ & _ & ->) | [(_ & _ & ->) | (_ & _ & ->)]];
      simpl; by rewrite Hc, Hd, Hn.
  - assert (stage_of s = Ready) as -> by (unfold stage_of; simpl; by destruct completed).
    destruct (start_page_cases_items inp s []) as [-> | [(_ & _ & ->) | (_ & ->)]];
      [by right | by right | by left].
Qed.

(** X13: a run that no button of the page on screen triggered (a plain
    rerun, or the press of a button of another page) changes nothing in a
    store that has its keys, and only initialises the keys that are
    missing. *)
Theorem foreign_press_changes_nothing (inp : user_input) (s : session_state) :
  (∀ b, click inp = Some b → b ∉ stage_buttons (stage_of s)) →
  final_state (run inp s) = with_defaults s.
Proof.
  intros Hforeign. rewrite run_stage.
  assert (Hnot : ∀ b, b ∈ stage_buttons (stage_of s) → click inp ≠ Some b)
    by (intros b Hb Hclick; by apply (Hforeign b)).
  destruct (stage_of s); simpl in Hnot.
  - assert (Hform : form_accepted inp = false).
    { unfold form_accepted. rewrite bool_decide_eq_false_2; [done |].
      apply Hnot. by apply list_elem_of_here. }
    by destruct (creation_page_rejected inp (with_defaults s) [] Hform) as (? & _).
  - destruct (start_page_cases_items inp (with_defaults s) [])
      as [-> | [(Hclick & _) | (Hclick & _)]]; [done | |]; exfalso;
      revert Hclick; apply Hnot; repeat constructor.
  - destruct (test_page_cases inp (with_defaults s) []
                (default 0 (current_question s)) (default ∅ (student_answers s))
                eq_refl eq_refl)
      as [-> | (items & _ & _ & [(_ & Hclick & _) | [(_ & Hclick & _) | (_ & Hclick & _)]])];
      [done | | |]; exfalso; revert Hclick; apply Hnot; repeat constructor.
  - destruct (results_page_cases_click inp (with_defaults s) [])
      as [-> | (Hclick & _)]; [done |]. exfalso.
    revert Hclick; apply Hnot; repeat constructor.
Qed.

(** ** What a started test has been through *)

Lemma displayable_fields question :
  displayable question = true →
  ∃ text fields,
    subscript question "question_text" = Ok text
    ∧ subscript question "options" = Ok (JObj fields)
    ∧ keys (JObj fields) = Ok fields.*1.
Proof using Type.
  unfold displayable. intros H.
  destruct (subscript question "question_text") as [text|]; [|done].
  destruct (subscript question "options") as [[| | | | | |fields]|]; try done.
  by exists text, fields.
Qed.

(** A run of the test page that changes the store has shown the question
    at the index. *)
Lemma test_page_cases_shown inp s log cq answers :
  current_question s = Some cq →
  student_answers s = Some answers →
  let o := show_test_interface inp s log in
  let saved := with_answer cq (in_selected_answer inp) s in
  final_state o = s
  ∨ ∃ items question,
      question_items s = Some items
      ∧ items !! cq = Some question
      ∧ displayable question = true
      ∧ (final_state o = set_current_question (cq - 1) saved
         ∨ final_state o = set_current_question (cq + 1) saved
         ∨ (cq = length items - 1
            ∧ final_state o = set_test_completed true saved)).
Proof using Type.
  intros Hcq Hanswers o saved. subst o saved.
  unfold show_test_interface, save_current_answer, question_items, with_answer,
    displayable.
  unfold_script. unfold lift. unfold_script. simpl.
  repeat (first [rewrite Hcq | rewrite Hanswers | case_match];
          simpl in *; simplify_eq; try (left; reflexivity)).
  all: repeat match goal with
         | H : bool_decide _ = true |- _ => apply bool_decide_eq_true_1 in H
         | H : bool_decide _ = false |- _ => apply bool_decide_eq_false_1 in H
         end.
  all: match goal with
       | Hq : subscript ?q "question_text" = Ok _,
         Ho : subscript ?q "options" = Ok ?o,
         Hk : keys ?o = Ok _,
         Hi : item ?qs _ = Ok ?q,
         He : elements_of ?qs = Ok _ |- _ =>
           right; eexists _, q; rewrite Hq, Ho;
           destruct o; try done;
           destruct qs; simpl in Hi, He; try done;
           repeat case_match; simplify_eq; try done
       end.
  all: split_and!; [reflexivity | assumption | reflexivity |].
  all: first [ left; reflexivity
             | right; left; reflexivity
             | right; right; split; [first [assumption | reflexivity] | reflexivity] ].
Qed.

(** Every run keeps both invariants. *)
Lemma run_keeps_shown_invariant inp s :
  session_invariant s →
  shown_invariant s →
  shown_invariant (final_state (run inp s)).
Proof.
  intros Hinv Hshown. rewrite run_stage.
  pose proof Hinv as (created & data & started & completed & answers & cq & name
                      & Hs & Hcreated & Htruthy & Hbefore & Hafter).
  assert (Hdef : with_defaults s = s) by (by subst s).
  rewrite Hdef.
  assert (Hstage : stage_of s =
            if negb created then Creating
            else if negb started then Ready
            else if negb completed then InProgress else Completed)
    by (by subst s).
  rewrite Hstage. destruct created; simpl.
  - destruct started; simpl; [destruct completed; simpl |].
    + destruct (results_page_cases inp s []) as [-> | ->]; [done | by intros ?].
    + assert (Hstarted : test_started s = Some true) by (by subst s).
      destruct (Hshown Hstarted) as (items & cq' & Hitems & Hcq' & Hbelow & _).
      assert (cq' = cq) as -> by (subst s; simpl in Hcq'; congruence).
      destruct (test_page_cases_shown inp s [] cq answers)
        as [-> | (items' & question & Hitems' & Hquestion & Hdisplay & Hnav)];
        [by subst s | by subst s | done |].
      assert (items' = items) as -> by congruence.
      destruct (with_answer_flags cq (in_selected_answer inp) s)
        as (_ & Hdata & _ & Hcompleted & _).
      assert (Hsaved : question_items (with_answer cq (in_selected_answer inp) s)
                       = Some items)
        by (unfold question_items in *; by rewrite Hdata).
      assert (Hupto : ∀ i q, items !! i = Some q → i < cq + 1 →
                             displayable q = true).
      { intros i q Hq Hi. destruct (decide (i = cq)) as [-> | Hne].
        - congruence.
        - apply (Hbelow i q Hq). lia. }
      destruct Hnav as [-> | [-> | [Hlast ->]]]; intros _.
      * exists items, (cq - 1). split_and!; [done | done | |].
        -- intros i q Hq Hi. apply (Hbelow i q Hq). lia.
        -- simpl. rewrite Hcompleted. by subst s.
      * exists items, (cq + 1). split_and!; [done | done | done |].
        simpl. rewrite Hcompleted. by subst s.
      * exists items, cq. split_and!; [done | | |].
        -- simpl. unfold with_answer.
           by destruct (in_selected_answer inp) as [[|c label]|], (student_answers s).
        -- intros i q Hq Hi. apply (Hupto i q Hq). lia.
        -- intros _. split; [intros ->; done |].
           apply Forall_lookup_2. intros i q Hq. apply (Hupto i q Hq).
           apply lookup_lt_Some in Hq. lia.
    + destruct (start_page_cases_items inp s [])
        as [-> | [(_ & [items Hitems] & ->) | (_ & ->)]];
        [done | | by intros ?].
      destruct (Hbefore eq_refl) as (-> & -> & ->). subst s. intros _.
      exists items, 0. split_and!; [done | done | | done].
      intros i q _ Hi. lia.
  - destruct (Hcreated eq_refl) as [-> ->].
    destruct (Hbefore eq_refl) as (-> & -> & ->). subst s.
    destruct (creation_page_cases_truthy inp
                (mk_session (Some false) (Some JNull) (Some false) (Some false)
                   (Some ∅) (Some 0) (Some name)) [])
      as [-> | [-> | (data & Hdata & ->)]]; by intros ?.
Qed.

Lemma reachable_shown_invariant s :
  reachable s → shown_invariant s.
Proof.
  induction 1 as [|inp s Hreach IH]; [by intros ? |].
  destruct (reachable_session_invariant s Hreach) as [-> | Hinv].
  - rewrite run_stage.
    change (stage_of no_keys) with Creating.
    change (with_defaults no_keys) with fresh_session.
    destruct (creation_page_cases_truthy inp fresh_session [])
      as [-> | [-> | (data & _ & ->)]]; by intros ?.
  - by apply run_keeps_shown_invariant.
Qed.

Lemma runs_reachable inps :
  ∀ s, reachable s → reachable (runs inps s).
Proof.
  induction inps as [|inp inps IH]; intros s Hreach; [done |].
  apply IH. by constructor.
Qed.

(** ** A test taken from the first question to the last *)

(** The answers once the label selected for the question at index [k] is
    saved. *)
Lemma with_answer_session data started completed answers k name selected :
  with_answer k selected
    (mk_session (Some true) (Some data) (Some started) (Some completed)
       (Some answers) (Some k) (Some name))
  = mk_session (Some true) (Some data) (Some started) (Some completed)
      (Some match selected with
            | Some (String c label) =>
                <[question_key (k + 1) := String c label]> answers
            | _ => answers
            end) (Some k) (Some name).
Proof using Type. by destruct selected as [[|c label]|]. Qed.

Lemma runs_from data qs name :
  subscript data "questions" = Ok (JArr qs) →
  Forall (λ q, displayable q = true) qs →
  ∀ inps k answers,
    inps ≠ [] →
    k + length inps = length qs →
    (∀ j inp, inps !! j = Some inp →
       click inp
       = Some (if decide (k + j = length qs - 1) then BtnFinish else BtnNext)) →
    ∃ answers',
      runs inps (mk_session (Some true) (Some data) (Some true) (Some false)
                   (Some answers) (Some k) (Some name))
      = mk_session (Some true) (Some data) (Some true) (Some true)
          (Some answers') (Some (length qs - 1)) (Some name)
      ∧ (∀ j inp, inps !! j = Some inp →
           answers' !! question_key (k + j + 1)
           = match in_selected_answer inp with
             | Some (String c label) => Some (String c label)
             | _ => answers !! question_key (k + j + 1)
             end)
      ∧ (∀ key, (∀ j, j < length inps → key ≠ question_key (k + j + 1)) →
                answers' !! key = answers !! key).
Proof.
  intros Hqs Hshown.
  induction inps as [|inp rest IH]; intros k answers Hne Hlen Hclick; [done |].
  set (s := mk_session (Some true) (Some data) (Some true) (Some false)
              (Some answers) (Some k) (Some name)).
  simpl in Hlen.
  assert (Hk : k < length qs) by lia.
  destruct (lookup_lt_is_Some_2 qs k Hk) as [question Hquestion].
  assert (Hdisplay : displayable question = true)
    by (by eapply Forall_lookup_1 in Hshown).
  destruct (displayable_fields question Hdisplay) as (text & fields & Htext & Hopts & Hkeys).
  destruct (test_page_navigation inp s [] data qs k question text (JObj fields)
              fields.*1 answers eq_refl Hqs eq_refl Hquestion Htext Hopts Hkeys
              eq_refl) as [_ Hfinal].
  pose proof (Hclick 0 inp eq_refl) as Hpress. rewrite Nat.add_0_r in Hpress.
  set (saved := match in_selected_answer inp with
                | Some (String c label) =>
                    <[question_key (k + 1) := String c label]> answers
                | _ => answers
                end).
  assert (Hrun : final_state (run inp s)
                 = if decide (k = length qs - 1)
                   then mk_session (Some true) (Some data) (Some true) (Some true)
                          (Some saved) (Some k) (Some name)
                   else mk_session (Some true) (Some data) (Some true) (Some false)
                          (Some saved) (Some (k + 1)) (Some name)).
  { assert (run inp s = show_test_interface inp s []) as ->
      by (rewrite run_stage; reflexivity).
    rewrite Hfinal, Hpress.
    unfold s. rewrite with_answer_session.
    by destruct (decide (k = length qs - 1)). }
  change (runs (inp :: rest) s) with (runs rest (final_state (run inp s))).
  rewrite Hrun.
  assert (Hsaved_at : saved !! question_key (k + 1)
                      = match in_selected_answer inp with
                        | Some (String c label) => Some (String c label)
                        | _ => answers !! question_key (k + 1)
                        end).
  { unfold saved. destruct (in_selected_answer inp) as [[|c label]|]; [done | | done].
    by rewrite lookup_insert_eq. }
  assert (Hsaved_other : ∀ key, key ≠ question_key (k + 1) →
                                saved !! key = answers !! key).
  { intros key Hkey. unfold saved.
    destruct (in_selected_answer inp) as [[|c label]|]; [done | | done].
    by rewrite lookup_insert_ne. }
  destruct rest as [|inp' rest].
  - simpl in Hlen. rewrite decide_True by lia.
    exists saved. split_and!.
    + simpl. do 2 f_equal. lia.
    + intros [|j] inp0 Hj; [| done]. injection Hj as <-.
      by rewrite Nat.add_0_r.
    + intros key Hkey. apply Hsaved_other.
      specialize (Hkey 0). rewrite Nat.add_0_r in Hkey. apply Hkey. simpl. lia.
  - simpl in Hlen. rewrite decide_False by lia.
    destruct (IH (k + 1) saved) as (answers' & Hruns & Hstored & Hother).
    + done.
    + simpl. lia.
    + intros j inp0 Hj. rewrite (Hclick (S j) inp0 Hj).
      by replace (k + S j) with (k + 1 + j) by lia.
    + exists answers'. split_and!.
      * exact Hruns.
      * intros [|j] inp0 Hj.
        -- injection Hj as <-. rewrite Nat.add_0_r.
           rewrite Hother; [done |].
           intros j _ Heq. apply question_key_inj in Heq. lia.
        -- replace (k + S j + 1) with (k + 1 + j + 1) by lia.
           rewrite (Hstored j inp0 Hj).
           destruct (in_selected_answer inp0) as [[|c label]|]; [| done |];
             apply Hsaved_other; intros Heq; apply question_key_inj in Heq; lia.
      * intros key Hkey. rewrite Hother.
        -- apply Hsaved_other. specialize (Hkey 0).
           rewrite Nat.add_0_r in Hkey. apply Hkey. simpl. lia.
        -- intros j Hj. replace (k + 1 + j + 1) with (k + S j + 1) by lia.
           apply Hkey. simpl in *. lia.
Qed.

(** X19: a test taken from the first question to the last.  From the store
    of a test just started, whose questions the test page can all show, one
    run per question, triggered by the Next button and, on the last
    question, by the Finish button, leaves the test completed with the index
    on the last question; under the key of each question it stores the
    label selected in the run that showed it (what was stored before, if
    none was selected), and it leaves every other key as it was. *)
Theorem answers_recorded_along_the_test (data : json) (qs : list json)
    (name : string) (answers : gmap string string) (inps : list user_input) :
  subscript data "questions" = Ok (JArr qs) →
  qs ≠ [] →
  Forall (λ q, displayable q = true) qs →
  length inps = length qs →
  (∀ i inp, inps !! i = Some inp →
     click inp = Some (if decide (i = length qs - 1) then BtnFinish else BtnNext)) →
  ∃ answers',
    runs inps (mk_session (Some true) (Some data) (Some true) (Some false)
                 (Some answers) (Some 0) (Some name))
    = mk_session (Some true) (Some data) (Some true) (Some true)
        (Some answers') (Some (length qs - 1)) (Some name)
    ∧ (∀ i inp, inps !! i = Some inp →
         answers' !! question_key (i + 1)
         = match in_selected_answer inp with
           | Some (String c label) => Some (String c label)
           | _ => answers !! question_key (i + 1)
           end)
    ∧ (∀ key, (∀ i, i < length qs → key ≠ question_key (i + 1)) →
              answers' !! key = answers !! key).
Proof.
  intros Hqs Hne Hshown Hlen Hclick.
  destruct (runs_from data qs name Hqs Hshown inps 0 answers)
    as (answers' & Hruns & Hstored & Hother).
  - intros ->. by destruct qs.
  - exact Hlen.
  - exact Hclick.
  - exists answers'. split_and!; [exact Hruns | exact Hstored |].
    intros key Hkey. apply Hother. intros j Hj. apply Hkey. lia.
Qed.

(** ** The results page of a completed test *)

Lemma results_page_run inp data items answers cq name :
  truthy data = true →
  subscript data "questions" ≫= elements_of = Ok items →
  let s := mk_session (Some true) (Some data) (Some true) (Some true)
             (Some answers) (Some cq) (Some name) in
  run inp s
  = match calculate_score items answers with
    | Raise e => Stop (Raised e) s []
    | Ok score =>
        match display_results score name s [] with
        | Stop how s' shown => Stop how s' shown
        | Next _ s' shown =>
            if bool_decide (click inp = Some BtnAnotherTest)
            then Stop Rerun no_keys (shown ++ [EvButton BtnAnotherTest])
            else Next () s' (shown ++ [EvButton BtnAnotherTest])
        end
    end.
Proof.
  intros Htruthy Hitems s.
  assert (run inp s = show_results_interface inp s []) as ->
    by (rewrite run_stage; reflexivity).
  destruct (subscript data "questions") as [questions|] eqn:Hquestions; [|done].
  simpl in Hitems.
  unfold show_results_interface.
  unfold_script. unfold lift. unfold_script. simpl.
  rewrite Htruthy. simpl. rewrite Hquestions. simpl. rewrite Hitems. simpl.
  destruct (calculate_score items answers) as [score|e]; simpl; [| done].
  destruct (display_results score name s []) as [[] s' shown|how s' shown];
    simpl; [| done].
  by case_bool_decide.
Qed.

End Script.


(** ** Properties of the scorer *)

Lemma has_scoring_fields_subscripts question :
  has_scoring_fields question = true →
  ∃ correct text opts,
    subscript question "correct_answer" = Ok correct
    ∧ subscript question "question_text" = Ok text
    ∧ subscript question "options" = Ok opts.
Proof.
  destruct question as [| | | | | |fields]; try done. simpl.
  rewrite !andb_true_iff, !bool_decide_eq_true.
  intros [[[correct ->] [text ->]] [opts ->]]. by exists correct, text, opts.
Qed.

(** The loop body succeeds on a question with the three fields, and every
    field of the entry it builds is read off the question and the answers. *)
Lemma score_question_entry answers i question :
  has_scoring_fields question = true →
  ∃ entry,
    score_question answers i question = Ok entry
    ∧ question_number entry = i + 1
    ∧ student_answer entry = answers !! question_key (i + 1)
    ∧ subscript question "correct_answer" = Ok (correct_answer entry)
    ∧ subscript question "question_text" = Ok (question_text entry)
    ∧ subscript question "options" = Ok (options entry)
    ∧ is_correct entry = answer_eq (student_answer entry) (correct_answer entry)
    ∧ get_default question "explanation" (JStr "No explanation provided")
      = Ok (explanation entry)
    ∧ get_default question "topic" (JStr "General") = Ok (topic entry)
    ∧ get_default question "difficulty" (JStr "Medium") = Ok (difficulty entry).
Proof.
  intros Hfields.
  destruct (has_scoring_fields_subscripts _ Hfields) as (correct & text & opts & Hc & Ht & Ho).
  destruct question as [| | | | | |fields]; try done.
  unfold score_question. rewrite Hc, Ht, Ho. simpl.
  eexists. split; [done |]. by simpl.
Qed.

(** The loop adds to its accumulators one entry per question, in order. *)
Lemma score_loop_entries answers questions :
  Forall (λ q, has_scoring_fields q = true) questions →
  ∀ i correct shown,
    ∃ entries,
      score_loop answers i questions correct shown
      = Ok (correct + marked_correct entries, shown ++ entries)
      ∧ length entries = length questions
      ∧ ∀ j question,
          questions !! j = Some question →
          ∃ entry,
            entries !! j = Some entry
            ∧ score_question answers (i + j) question = Ok entry.
Proof.
  induction 1 as [|question rest Hq _ IH]; intros i correct shown.
  - exists []. simpl. rewrite app_nil_r, Nat.add_0_r. by split_and!.
  - destruct (score_question_entry answers i question Hq) as (entry & Hentry & _).
    simpl. rewrite Hentry. simpl.
    destruct (IH (S i) (if is_correct entry then correct + 1 else correct)
                (shown ++ [entry])) as (entries & -> & Hlen & Hall).
    exists (entry :: entries). split_and!.
    + f_equal. f_equal; [| by rewrite <- app_assoc].
      simpl. destruct (is_correct entry); lia.
    + simpl. by rewrite Hlen.
    + intros [|j] q Hj; simpl in *.
      * injection Hj as <-. exists entry. by rewrite Nat.add_0_r.
      * destruct (Hall j q Hj) as (e & He & Hs). exists e.
        split; [done |]. by rewrite <- Nat.add_succ_comm.
Qed.

(** On a question whose correct answer is not [None], the comparison the
    loop makes is the string comparison of a stored label with the correct
    label. *)
Lemma answer_eq_answered_correctly answers i question correct :
  subscript question "correct_answer" = Ok correct →
  has_correct_label question = true →
  answer_eq (answers !! question_key (i + 1)) correct
  = answered_correctly answers i question.
Proof.
  unfold has_correct_label, answered_correctly. intros ->.
  by destruct (answers !! question_key (i + 1)), correct.
Qed.

Lemma marked_correct_count answers questions :
  Forall (λ q, has_correct_label q = true) questions →
  ∀ i entries,
    length entries = length questions →
    (∀ j question,
       questions !! j = Some question →
       ∃ entry,
         entries !! j = Some entry
         ∧ score_question answers (i + j) question = Ok entry) →
    marked_correct entries = count_answered_correctly answers i questions.
Proof.
  induction 1 as [|question rest Hq _ IH]; intros i entries Hlen Hall.
  - by destruct entries.
  - destruct entries as [|entry entries]; [done |].
    destruct (Hall 0 question eq_refl) as (e & [= <-] & Hentry).
    rewrite Nat.add_0_r in Hentry.
    assert (Hfields : has_scoring_fields question = true).
    { unfold score_question in Hentry. unfold has_correct_label in Hq.
      destruct question as [| | | | | |fields]; try done. simpl in *.
      destruct (dict_get "correct_answer" fields); [|done].
      destruct (dict_get "question_text" fields); [|done].
      by destruct (dict_get "options" fields). }
    destruct (score_question_entry answers i question Hfields)
      as (e & He & _ & Hans & Hc & _ & _ & Hcorrect & _).
    rewrite Hentry in He. injection He as <-.
    simpl.
    rewrite Hcorrect, Hans, (answer_eq_answered_correctly _ _ _ _ Hc Hq).
    rewrite (IH (S i) entries).
    + by destruct (answered_correctly answers i question).
    + by injection Hlen.
    + intros j q Hj. destruct (Hall (S j) q Hj) as (e & He & Hs).
      exists e. split; [done |]. by rewrite Nat.add_succ_comm.
Qed.

(** C1 (as amended): on a non-empty list of questions that have the fields
    the scorer reads and a correct answer other than [None], the scorer
    returns; [correct_answers] is the number of questions whose stored
    answer label is the same string as the correct label, a question without
    stored answer not being counted; [score_percentage] is
    [correct_answers / total_questions * 100] in binary64 arithmetic; and
    [results] has one entry per question, in question order, with
    [is_correct] set accordingly. *)
Theorem calculate_score_counts_matching_labels
    (questions : list json) (answers : gmap string string) :
  0 < length questions →
  Forall (λ q, has_scoring_fields q = true ∧ has_correct_label q = true) questions →
  ∃ score,
    calculate_score questions answers = Ok score
    ∧ total_questions score = length questions
    ∧ correct_answers score = count_answered_correctly answers 0 questions
    ∧ score_percentage score
      = (float_of_nat (correct_answers score)
         / float_of_nat (total_questions score) * 100)%float
    ∧ length (results score) = length questions
    ∧ ∀ i question,
        questions !! i = Some question →
        ∃ entry,
          results score !! i = Some entry
          ∧ question_number entry = i + 1
          ∧ student_answer entry = answers !! question_key (i + 1)
          ∧ subscript question "correct_answer" = Ok (correct_answer entry)
          ∧ is_correct entry = answered_correctly answers i question.
Proof.
  intros Hlen Hall.
  assert (Hfields : Forall (λ q, has_scoring_fields q = true) questions)
    by (eapply Forall_impl; [exact Hall | by intros q [? ?]]).
  assert (Hlabel : Forall (λ q, has_correct_label q = true) questions)
    by (eapply Forall_impl; [exact Hall | by intros q [? ?]]).
  destruct (score_loop_entries answers questions Hfields 0 0 [])
    as (entries & Hloop & Hentries & Hnth).
  unfold calculate_score. rewrite Hloop. simpl.
  unfold true_div. rewrite decide_False by lia. simpl.
  eexists. split; [done |]. simpl.
  split_and!; [done | by eapply marked_correct_count | done | done |].
  intros i question Hi.
  destruct (Hnth i question Hi) as (entry & Hentry & Hscore).
  exists entry. split; [done |].
  assert (Hq : has_scoring_fields question = true)
    by (by eapply Forall_lookup_1 in Hfields).
  destruct (score_question_entry answers i question Hq)
    as (e & He & Hnum & Hans & Hc & _ & _ & Hcorrect & _).
  simpl in Hscore. rewrite Hscore in He. injection He as <-.
  split_and!; [done.. |].
  rewrite Hcorrect, Hans. apply answer_eq_answered_correctly; [done |].
  by eapply Forall_lookup_1 in Hlabel.
Qed.

(** The spec's first scenario: correct labels A and B, answers A and C. *)
Lemma calculate_score_counts_matching_labels_witness :
  let questions := [demo_question_1; demo_question_2] in
  let answers : gmap string string := <["q_1" := "A"]> (<["q_2" := "C"]> ∅) in
  0 < length questions
  ∧ Forall (λ q, has_scoring_fields q = true ∧ has_correct_label q = true) questions
  ∧ ∃ score,
      calculate_score questions answers = Ok score
      ∧ total_questions score = length questions
      ∧ correct_answers score = count_answered_correctly answers 0 questions
      ∧ score_percentage score
        = (float_of_nat (correct_answers score)
           / float_of_nat (total_questions score) * 100)%float
      ∧ length (results score) = length questions
      ∧ ∀ i question,
          questions !! i = Some question →
          ∃ entry,
            results score !! i = Some entry
            ∧ question_number entry = i + 1
            ∧ student_answer entry = answers !! question_key (i + 1)
            ∧ subscript question "correct_answer" = Ok (correct_answer entry)
            ∧ is_correct entry = answered_correctly answers i question.
Proof.
  split_and!.
  - simpl. lia.
  - repeat constructor.
  - apply calculate_score_counts_matching_labels.
    + simpl. lia.
    + repeat constructor.
Defined.

(** C1, as stated, fails: a question whose correct answer is [None] and
    for which no answer is stored is counted as correct. *)
Lemma unanswered_question_counted_correct :
  ∃ score,
    calculate_score [unlabelled_question] ∅ = Ok score
    ∧ correct_answers score = 1
    ∧ count_answered_correctly ∅ 0 [unlabelled_question] = 0.
Proof. eexists. split_and!; reflexivity. Qed.

(** C9: a question only needs the fields [correct_answer], [question_text]
    and [options] for the scorer to return, and in its entry a missing
    [explanation], [topic] or [difficulty] is replaced by
    ['No explanation provided'], ['General'] or ['Medium']; a field that is
    there is copied. *)
Theorem calculate_score_defaults
    (questions : list json) (answers : gmap string string) :
  0 < length questions →
  Forall (λ q, has_scoring_fields q = true) questions →
  ∃ score,
    calculate_score questions answers = Ok score
    ∧ ∀ i question,
        questions !! i = Some question →
        ∃ fields entry,
          question = JObj fields
          ∧ results score !! i = Some entry
          ∧ explanation entry
            = default (JStr "No explanation provided") (dict_get "explanation" fields)
          ∧ topic entry = default (JStr "General") (dict_get "topic" fields)
          ∧ difficulty entry = default (JStr "Medium") (dict_get "difficulty" fields).
Proof.
  intros Hlen Hfields.
  destruct (score_loop_entries answers questions Hfields 0 0 [])
    as (entries & Hloop & Hentries & Hnth).
  unfold calculate_score. rewrite Hloop. simpl.
  unfold true_div. rewrite decide_False by lia. simpl.
  eexists. split; [done |]. simpl.
  intros i question Hi.
  destruct (Hnth i question Hi) as (entry & Hentry & Hscore).
  assert (Hq : has_scoring_fields question = true)
    by (by eapply Forall_lookup_1 in Hfields).
  destruct (score_question_entry answers i question Hq)
    as (e & He & _ & _ & _ & _ & _ & _ & Hexp & Htopic & Hdiff).
  simpl in Hscore. rewrite Hscore in He. injection He as <-.
  destruct question as [| | | | | |fields]; try done.
  exists fields, entry. simpl in *.
  split_and!; [done | done | congruence..].
Qed.

Lemma calculate_score_defaults_witness :
  let questions := [demo_question_1; demo_question_2] in
  let answers : gmap string string := ∅ in
  0 < length questions
  ∧ Forall (λ q, has_scoring_fields q = true) questions
  ∧ ∃ score,
      calculate_score questions answers = Ok score
      ∧ ∀ i question,
          questions !! i = Some question →
          ∃ fields entry,
            question = JObj fields
            ∧ results score !! i = Some entry
            ∧ explanation entry
              = default (JStr "No explanation provided") (dict_get "explanation" fields)
            ∧ topic entry = default (JStr "General") (dict_get "topic" fields)
            ∧ difficulty entry = default (JStr "Medium") (dict_get "difficulty" fields).
Proof.
  split_and!.
  - simpl. lia.
  - repeat constructor.
  - apply calculate_score_defaults.
    + simpl. lia.
    + repeat constructor.
Defined.

(** The two scenarios of the specification, evaluated. *)
Example score_one_of_two :
  calculate_score [demo_question_1; demo_question_2]
    (<["q_1" := "A"]> (<["q_2" := "C"]> ∅))
  = Ok (mk_score 2 1 50
          [mk_entry 1 (JStr "2 + 2 = ?")
             (JObj [("A", JStr "4"); ("B", JStr "3"); ("C", JStr "5"); ("D", JStr "22")])
             (Some "A") (JStr "A") true
             (JStr "Two and two make four") (JStr "Algebra") (JStr "Easy");
           mk_entry 2 (JStr "x + 1 = 3, x = ?")
             (JObj [("A", JStr "1"); ("B", JStr "2"); ("C", JStr "3")])
             (Some "C") (JStr "B") false
             (JStr "No explanation provided") (JStr "General") (JStr "Medium")]).
Proof. reflexivity. Qed.

Example score_nothing_answered :
  ∃ score,
    calculate_score (replicate 5 demo_question_1) ∅ = Ok score
    ∧ correct_answers score = 0
    ∧ score_percentage score = 0%float
    ∧ Forall (λ entry, is_correct entry = false ∧ student_answer entry = None)
        (results score).
Proof. eexists. split_and!; [reflexivity.. |]. repeat constructor. Qed.

(** An empty list of questions makes the division raise. *)
Example score_of_no_question :
  calculate_score [] ∅ = Raise ZeroDivisionError.
Proof. reflexivity. Qed.

(** ** The parser and the pages on sample data *)

(** The sample response decodes to the sample quiz. *)
(** The messages of three reports: both answers right; one of two right
    (50 percent, below 60); two of three right (66.7 percent). *)
Example report_messages_of_scores :
  let report questions (answers : gmap string string) :=
    score ← calculate_score questions answers; Ok (report_messages score "Ada") in
  report [demo_question_1; demo_question_2]
    (<["q_1" := "A"]> (<["q_2" := "B"]> ∅))
  = Ok []
  ∧ report [demo_question_1; demo_question_2]
      (<["q_1" := "A"]> (<["q_2" := "C"]> ∅))
    = Ok [EvWarning "📚 Keep studying, Ada! You can do better next time.";
          EvError "❌ Question 2: Incorrect"]
  ∧ report [demo_question_1; demo_question_2; demo_question_1]
      (<["q_1" := "A"]> (<["q_2" := "B"]> ∅))
    = Ok [EvError "❌ Question 3: Incorrect"].
Proof. split_and!; vm_compute; reflexivity. Qed.

(** A [str] is counted and indexed by code points, not by bytes. *)
Example code_points_of_text :
  code_points "añ📚b" = ["a"; "ñ"; "📚"; "b"]
  ∧ elements_of (JStr "añ📚b") = Ok [JStr "a"; JStr "ñ"; JStr "📚"; JStr "b"]
  ∧ item (JStr "añ📚b") 2 = Ok (JStr "📚")
  ∧ item (JStr "añ📚b") 4 = Raise IndexError.
Proof. split_and!; vm_compute; reflexivity. Qed.

Example decode_demo_json :
  decode_json ("{" +:+ demo_json_body +:+ "}") = Decoded demo_quiz.
Proof. vm_compute. reflexivity. Qed.



(** A document that has a question without correct answer, with a single
    option and with a difficulty the prompt does not know. *)
Lemma parse_mcq_response_no_validation_witness :
  let span :=
    "{" +:+ quoted "questions" +:+ ": [{"
    +:+ quoted "question_text" +:+ ": " +:+ quoted "?" +:+ ", "
    +:+ quoted "options" +:+ ": {" +:+ quoted "A" +:+ ": " +:+ quoted "yes" +:+ "}, "
    +:+ quoted "difficulty" +:+ ": " +:+ quoted "Impossible" +:+ "}]}" in
  let document :=
    JObj [("questions",
           JArr [JObj [("question_text", JStr "?");
                       ("options", JObj [("A", JStr "yes")]);
                       ("difficulty", JStr "Impossible")]])] in
  search_braces ("Quiz: " +:+ span) = Some span
  ∧ decode_json span = Decoded document
  ∧ parse_mcq_response decode_json ("Quiz: " +:+ span) = Ok (document, []).
Proof.
  intros span document.
  assert (Hspan : search_braces ("Quiz: " +:+ span) = Some span)
    by (vm_compute; reflexivity).
  assert (Hdec : decode_json span = Decoded document)
    by (vm_compute; reflexivity).
  split_and!; [assumption | assumption |].
  exact (parse_mcq_response_no_validation decode_json _ _ _ Hspan Hdec).
Defined.

(** The form without a name is turned down before anything else happens. *)
Lemma creation_rejects_incomplete_form_witness :
  let inp :=
    mk_input (Some BtnCreate) "" (Some "Mathematics") ["Algebra"] "" 5 "Easy"
      "sk-test" None (Failure "") in
  click inp = Some BtnCreate
  ∧ (in_student_name inp = "" ∨ in_api_key inp = ""
     ∨ get_topics_for_subject demo_syllabus (in_selected_subject inp) = []
     ∨ in_selected_topics inp = [])
  ∧ ∃ msg,
      msg ∈ ["Please enter your name"; "Please provide your OpenAI API key";
             "Please select at least one topic"]
      ∧ show_test_creation_interface decode_json demo_syllabus inp fresh_session []
        = Stop Returned fresh_session
            ([]
             ++ (if bool_decide
                      (get_topics_for_subject demo_syllabus (in_selected_subject inp) = [])
                 then [EvWarning "No topics available for this subject."] else [])
             ++ [EvButton BtnCreate; EvError msg]).
Proof.
  intros inp.
  assert (Hclick : click inp = Some BtnCreate) by reflexivity.
  assert (Hbad : in_student_name inp = "" ∨ in_api_key inp = ""
                 ∨ get_topics_for_subject demo_syllabus (in_selected_subject inp) = []
                 ∨ in_selected_topics inp = [])
    by (left; reflexivity).
  split_and!; [assumption | assumption |].
  exact (creation_rejects_incomplete_form decode_json demo_syllabus inp
           fresh_session [] Hclick Hbad).
Defined.

Lemma failed_creation_stores_only_the_name_witness :
  let inp := demo_form (Failure "timeout") in
  let o := show_test_creation_interface decode_json demo_syllabus inp fresh_session [] in
  click inp = Some BtnCreate
  ∧ in_student_name inp ≠ ""
  ∧ in_api_key inp ≠ ""
  ∧ get_topics_for_subject demo_syllabus (in_selected_subject inp) ≠ []
  ∧ in_selected_topics inp ≠ []
  ∧ (generation_failed (in_completion inp)
     ∨ parse_failed decode_json (in_completion inp))
  ∧ final_state o = set_student_name "Ada" fresh_session
  ∧ ended o = None
  ∧ test_data (final_state o) = Some JNull
  ∧ student_answers (final_state o) = Some ∅
  ∧ stage_of (final_state o) = Creating.
Proof.
  intros inp o.
  assert (Hclick : click inp = Some BtnCreate) by reflexivity.
  assert (Hname : in_student_name inp ≠ "") by discriminate.
  assert (Hkey : in_api_key inp ≠ "") by discriminate.
  assert (Htopics : get_topics_for_subject demo_syllabus (in_selected_subject inp) ≠ [])
    by discriminate.
  assert (Hsel : in_selected_topics inp ≠ []) by discriminate.
  assert (Hfail : generation_failed (in_completion inp)
                  ∨ parse_failed decode_json (in_completion inp))
    by (left; exact I).
  destruct (failed_creation_stores_only_the_name decode_json demo_syllabus inp
              fresh_session [] Hclick Hname Hkey Htopics Hsel Hfail)
    as (Hfinal & Hended & _ & _ & Hdata & _ & _ & Hanswers & _ & _ & Hstage).
  split_and!; assumption.
Defined.

(** C2, as stated, fails: after an attempt that fails in generation, and
    after one that fails in parsing, the store holds the submitted name,
    which it did not hold before. *)
Lemma failed_creation_changes_student_name :
  let failed_generation :=
    run decode_json demo_syllabus (demo_form (Failure "timeout")) fresh_session in
  let failed_parse :=
    run decode_json demo_syllabus
      (demo_form (Content (Some "I have no questions for you."))) fresh_session in
  student_name fresh_session = Some ""
  ∧ last (final_log failed_generation)
    = Some (EvError "Failed to generate questions. Please check your API key and try again.")
  ∧ stage_of (final_state failed_generation) = Creating
  ∧ student_name (final_state failed_generation) = Some "Ada"
  ∧ last (final_log failed_parse)
    = Some (EvError "Failed to create test. Please try again.")
  ∧ stage_of (final_state failed_parse) = Creating
  ∧ student_name (final_state failed_parse) = Some "Ada".
Proof. split_and!; vm_compute; reflexivity. Qed.

(** A session is created, started, and its first question answered. *)
Example demo_session_reachable :
  reachable decode_json demo_syllabus
    (session_with demo_quiz true false (<["q_1" := "A"]> ∅) 1).
Proof.
  pose proof (reachable_new decode_json demo_syllabus) as H0.
  pose proof (reachable_run decode_json demo_syllabus (press None None) _ H0) as H1.
  pose proof (reachable_run decode_json demo_syllabus
                (demo_form (Content (Some demo_response))) _ H1) as H2.
  pose proof (reachable_run decode_json demo_syllabus
                (press (Some BtnStart) None) _ H2) as H3.
  pose proof (reachable_run decode_json demo_syllabus
                (press (Some BtnNext) (Some "A")) _ H3) as H4.
  vm_compute in H4. exact H4.
Qed.

Lemma current_question_stays_in_range_witness :
  let s := session_with demo_quiz true false (<["q_1" := "A"]> ∅) 1 in
  let o := show_test_interface (press (Some BtnPrevious) (Some "B")) s [] in
  (∃ cq, current_question s = Some cq ∧ cq < length [demo_question_1; demo_question_2])
  ∧ raised o = None
  ∧ final_state o
    = session_with demo_quiz true false (<["q_2" := "B"]> (<["q_1" := "A"]> ∅)) 0
  ∧ question_items (final_state o) = Some [demo_question_1; demo_question_2]
  ∧ ∃ cq',
      current_question (final_state o) = Some cq'
      ∧ cq' < length [demo_question_1; demo_question_2].
Proof.
  intros s o.
  destruct (current_question_stays_in_range decode_json demo_syllabus)
    as [Hreach Hnav].
  split.
  - apply Hreach; [exact demo_session_reachable | reflexivity | reflexivity | discriminate].
  - destruct (Hnav (press (Some BtnPrevious) (Some "B")) s [] demo_quiz
                [demo_question_1; demo_question_2] 1 demo_question_2
                (JStr "x + 1 = 3, x = ?")
                (JObj [("A", JStr "1"); ("B", JStr "2"); ("C", JStr "3")])
                ["A"; "B"; "C"] (<["q_1" := "A"]> ∅)
                eq_refl eq_refl eq_refl eq_refl eq_refl eq_refl eq_refl eq_refl)
      as (Hraised & Hfinal & Hitems & Hrange).
    split_and!; assumption.
Defined.

(** C4, as stated, fails: the parser passes on a document whose list of
    questions is empty, the start page starts the test, and the index 0 is
    then not below the number of questions; the test page raises on it. *)
Lemma empty_quiz_breaks_index_range :
  let response := "{" +:+ quoted "questions" +:+ ": []}" in
  let created :=
    final_state (run decode_json demo_syllabus
                   (demo_form (Content (Some response))) fresh_session) in
  let started :=
    final_state (run decode_json demo_syllabus (press (Some BtnStart) None) created) in
  reachable decode_json demo_syllabus started
  ∧ stage_of started = InProgress
  ∧ question_items started = Some []
  ∧ current_question started = Some 0
  ∧ raised (run decode_json demo_syllabus (press None None) started)
    = Some ZeroDivisionError.
Proof.
  intros response created started.
  split; [| split_and!; vm_compute; reflexivity].
  pose proof (reachable_new decode_json demo_syllabus) as H0.
  pose proof (reachable_run decode_json demo_syllabus (press None None) _ H0) as H1.
  pose proof (reachable_run decode_json demo_syllabus
                (demo_form (Content (Some response))) _ H1) as H2.
  pose proof (reachable_run decode_json demo_syllabus
                (press (Some BtnStart) None) _ H2) as H3.
  vm_compute in H3. vm_compute. exact H3.
Qed.

Lemma reset_from_ready_and_completed_witness :
  let ready := session_with demo_quiz false false ∅ 0 in
  let completed :=
    session_with demo_quiz true true (<["q_2" := "C"]> (<["q_1" := "A"]> ∅)) 1 in
  stage_of ready = Ready
  ∧ run decode_json demo_syllabus (press (Some BtnNewTest) None) ready
    = Stop Rerun no_keys [EvButton BtnStart; EvButton BtnNewTest]
  ∧ stage_of completed = Completed
  ∧ run decode_json demo_syllabus (press (Some BtnAnotherTest) None) completed
    = Stop Rerun no_keys
        [EvWarning "📚 Keep studying, Ada! You can do better next time.";
         EvError "❌ Question 2: Incorrect";
         EvButton BtnAnotherTest]
  ∧ final_state (run decode_json demo_syllabus (press None None) no_keys)
    = fresh_session.
Proof.
  intros ready completed.
  destruct (reset_from_ready_and_completed decode_json demo_syllabus)
    as (Hready & Hcompleted & Hfresh & _).
  split_and!.
  - reflexivity.
  - apply (Hready _ ready demo_quiz (JArr [demo_question_1; demo_question_2])
             [demo_question_1; demo_question_2]); reflexivity.
  - reflexivity.
  - destruct (calculate_score [demo_question_1; demo_question_2]
                (<["q_2" := "C"]> (<["q_1" := "A"]> ∅))) as [score|e] eqn:Hscore;
      [| discriminate Hscore].
    assert (Hdicts : Forall (λ entry, ∃ fields, options entry = JObj fields)
                       (results score)).
    { injection Hscore as <-. repeat constructor; by eexists. }
    rewrite (Hcompleted (press (Some BtnAnotherTest) None) completed demo_quiz
               (JArr [demo_question_1; demo_question_2])
               [demo_question_1; demo_question_2] score
               eq_refl eq_refl eq_refl eq_refl Hscore Hdicts eq_refl).
    injection Hscore as <-. vm_compute. reflexivity.
  - apply Hfresh. reflexivity.
Defined.

(** C3, as stated, fails: while the test is in progress the page draws the
    navigation buttons only, and a run triggered by either reset button
    leaves the question set, the answers and the name in the store. *)
Lemma no_reset_while_in_progress :
  let s := session_with demo_quiz true false (<["q_1" := "A"]> ∅) 1 in
  stage_of s = InProgress
  ∧ final_log (run decode_json demo_syllabus (press None None) s)
    = [EvButton BtnPrevious; EvButton BtnFinish]
  ∧ run decode_json demo_syllabus (press (Some BtnNewTest) None) s
    = Next () s [EvButton BtnPrevious; EvButton BtnFinish]
  ∧ run decode_json demo_syllabus (press (Some BtnAnotherTest) None) s
    = Next () s [EvButton BtnPrevious; EvButton BtnFinish]
  ∧ final_log (run decode_json demo_syllabus (press None None) fresh_session)
    = [EvButton BtnCreate].
Proof. split_and!; vm_compute; reflexivity. Qed.

Lemma navigation_keeps_other_answers_witness :
  let s := session_with demo_quiz true false (<["q_2" := "C"]> ∅) 0 in
  let o := show_test_interface (press (Some BtnNext) (Some "A")) s [] in
  current_question s = Some 0
  ∧ student_answers s = Some (<["q_2" := "C"]> ∅)
  ∧ student_answers (final_state o) = Some (<["q_1" := "A"]> (<["q_2" := "C"]> ∅))
  ∧ ∃ answers',
      student_answers (final_state o) = Some answers'
      ∧ dom (<["q_2" := "C"]> (∅ : gmap string string)) ⊆ dom answers'
      ∧ ∀ n, n ≠ 0 + 1 →
          answers' !! question_key n
          = (<["q_2" := "C"]> (∅ : gmap string string)) !! question_key n.
Proof.
  intros s o.
  destruct (navigation_keeps_other_answers (press (Some BtnNext) (Some "A")) s []
              0 (<["q_2" := "C"]> ∅) eq_refl eq_refl)
    as (answers' & Hanswers & _ & Hdom & _ & Hother).
  split_and!; [reflexivity | reflexivity | reflexivity |].
  exists answers'. split_and!; assumption.
Defined.

(** ** Further properties of the scorer *)

Lemma score_question_ok_fields answers i question entry :
  score_question answers i question = Ok entry →
  has_scoring_fields question = true.
Proof.
  unfold score_question.
  destruct question as [| | | | | |fields]; try done. simpl.
  destruct (dict_get "correct_answer" fields); [|done].
  destruct (dict_get "question_text" fields); [|done].
  by destruct (dict_get "options" fields).
Qed.

Lemma score_loop_ok_fields answers questions :
  ∀ i correct shown r,
    score_loop answers i questions correct shown = Ok r →
    Forall (λ q, has_scoring_fields q = true) questions.
Proof.
  induction questions as [|question rest IH]; intros i correct shown r; simpl.
  - by constructor.
  - destruct (score_question answers i question) as [entry|e] eqn:Hentry; [|done].
    simpl. intros Hrest. constructor.
    + by eapply score_question_ok_fields.
    + by eapply IH.
Qed.

Lemma score_question_missing_field answers i question :
  has_scoring_fields question = false →
  score_question answers i question = Raise (missing_field question).
Proof.
  unfold score_question, missing_field.
  destruct question as [| | | | | |fields]; try done. simpl.
  destruct (dict_get "correct_answer" fields); [|done].
  destruct (dict_get "question_text" fields); [|done].
  by destruct (dict_get "options" fields).
Qed.

Lemma score_loop_first_failure answers good bad rest :
  Forall (λ q, has_scoring_fields q = true) good →
  has_scoring_fields bad = false →
  ∀ i correct shown,
    score_loop answers i (good ++ bad :: rest) correct shown
    = Raise (missing_field bad).
Proof.
  intros Hgood Hbad. induction Hgood as [|question good Hq _ IH];
    intros i correct shown; simpl.
  - by rewrite score_question_missing_field.
  - destruct (score_question_entry answers i question Hq) as (entry & -> & _).
    simpl. apply IH.
Qed.

Lemma marked_correct_le entries : marked_correct entries ≤ length entries.
Proof.
  induction entries as [|entry entries IH]; simpl; [lia |].
  destruct (is_correct entry); lia.
Qed.

Lemma calculate_score_ok_fields questions answers score :
  calculate_score questions answers = Ok score →
  questions ≠ [] ∧ Forall (λ q, has_scoring_fields q = true) questions.
Proof.
  intros Hscore. unfold calculate_score in Hscore.
  destruct (score_loop answers 0 questions 0 []) as [acc|e] eqn:Hloop; [|done].
  split; [| by eapply score_loop_ok_fields].
  intros ->. simpl in Hloop. by injection Hloop as <-.
Qed.

(** X14: [calculate_score] returns exactly when the list of questions is
    not empty and every question is a dict with the fields [correct_answer],
    [question_text] and [options]. *)
Theorem calculate_score_returns_iff (questions : list json)
    (answers : gmap string string) :
  (∃ score, calculate_score questions answers = Ok score)
  ↔ questions ≠ [] ∧ Forall (λ q, has_scoring_fields q = true) questions.
Proof.
  split.
  - intros [score Hscore]. by eapply calculate_score_ok_fields.
  - intros [Hne Hfields].
    destruct (score_loop_entries answers questions Hfields 0 0 [])
      as (entries & Hloop & _).
    unfold calculate_score. rewrite Hloop. simpl. unfold true_div.
    rewrite decide_False by (by destruct questions). by eexists.
Qed.

(** X15: the exceptions of [calculate_score].  An empty list of questions
    makes the percentage raise [ZeroDivisionError].  Otherwise the first
    question that is not a dict with the three fields decides: [TypeError]
    when it is not a dict, else [KeyError] on the first of [correct_answer],
    [question_text], [options] that it lacks; the questions after it are not
    looked at. *)
Theorem calculate_score_raises (answers : gmap string string) :
  calculate_score [] answers = Raise ZeroDivisionError
  ∧ ∀ good bad rest,
      Forall (λ q, has_scoring_fields q = true) good →
      has_scoring_fields bad = false →
      calculate_score (good ++ bad :: rest) answers = Raise (missing_field bad).
Proof.
  split; [done |]. intros good bad rest Hgood Hbad.
  unfold calculate_score. by rewrite score_loop_first_failure.
Qed.

(** X16: the report [calculate_score] returns is consistent: [results] has
    one entry per question, numbered 1, 2, ... in order; [total_questions]
    is their number; [correct_answers] is the number of entries marked
    correct, hence at most [total_questions]; and each entry holds the
    answer stored for its question and is marked correct exactly when that
    answer [==] its correct answer. *)
Theorem calculate_score_report_consistent (questions : list json)
    (answers : gmap string string) (score : score_data) :
  calculate_score questions answers = Ok score →
  total_questions score = length questions
  ∧ length (results score) = length questions
  ∧ correct_answers score = marked_correct (results score)
  ∧ correct_answers score ≤ total_questions score
  ∧ ∀ i entry,
      results score !! i = Some entry →
      question_number entry = i + 1
      ∧ student_answer entry = answers !! question_key (i + 1)
      ∧ is_correct entry = answer_eq (student_answer entry) (correct_answer entry)
      ∧ ∃ question,
          questions !! i = Some question
          ∧ subscript question "correct_answer" = Ok (correct_answer entry).
Proof.
  intros Hscore.
  assert (Hfields : Forall (λ q, has_scoring_fields q = true) questions).
  { by eapply calculate_score_ok_fields. }
  destruct (score_loop_entries answers questions Hfields 0 0 [])
    as (entries & Hloop & Hlen & Hnth).
  unfold calculate_score in Hscore. rewrite Hloop in Hscore. simpl in Hscore.
  destruct (true_div (marked_correct entries) (length questions)); [|done].
  injection Hscore as <-. simpl.
  split_and!; [done | done | done | |].
  - rewrite <- Hlen. apply marked_correct_le.
  - intros i entry Hentry.
    assert (Hi : i < length questions)
      by (rewrite <- Hlen; by eapply lookup_lt_Some).
    destruct (lookup_lt_is_Some_2 questions i Hi) as [question Hquestion].
    destruct (Hnth i question Hquestion) as (entry' & Hentry' & Hbody).
    assert (entry' = entry) as -> by congruence.
    assert (Hq : has_scoring_fields question = true)
      by (by eapply Forall_lookup_1 in Hfields).
    destruct (score_question_entry answers i question Hq)
      as (e & He & Hnum & Hans & Hc & _ & _ & Hcorrect & _).
    simpl in Hbody. rewrite Hbody in He. injection He as <-.
    split_and!; [done | done | done |]. by exists question.
Qed.

Lemma score_question_agree answers answers' i question :
  answers !! question_key (i + 1) = answers' !! question_key (i + 1) →
  score_question answers i question = score_question answers' i question.
Proof. unfold score_question. by intros ->. Qed.

Lemma score_loop_agree answers answers' questions :
  ∀ i correct shown,
    (∀ j, j < length questions →
          answers !! question_key (i + j + 1) = answers' !! question_key (i + j + 1)) →
    score_loop answers i questions correct shown
    = score_loop answers' i questions correct shown.
Proof.
  induction questions as [|question rest IH]; intros i correct shown Hagree;
    simpl; [done |].
  rewrite (score_question_agree answers answers' i question).
  - destruct (score_question answers' i question) as [entry|e]; [|done]. simpl.
    apply IH. intros j Hj.
    replace (S i + j + 1) with (i + S j + 1) by lia. apply Hagree. simpl. lia.
  - specialize (Hagree 0). rewrite Nat.add_0_r in Hagree. apply Hagree. simpl. lia.
Qed.

(** X17: the score only depends on what is stored under the keys of the
    questions scored: two answer maps that agree on [q_1] ... [q_n], n the
    number of questions, give the same report, whatever else they hold. *)
Theorem calculate_score_reads_question_keys (questions : list json)
    (answers answers' : gmap string string) :
  (∀ number, 1 ≤ number ≤ length questions →
             answers !! question_key number = answers' !! question_key number) →
  calculate_score questions answers = calculate_score questions answers'.
Proof.
  intros Hagree. unfold calculate_score.
  rewrite (score_loop_agree answers answers' questions 0 0 []); [done |].
  intros j Hj. apply Hagree. lia.
Qed.

Lemma calculate_score_reads_question_keys_witness :
  let answers : gmap string string := <["q_1" := "A"]> (<["q_2" := "C"]> ∅) in
  let answers' : gmap string string :=
    <["q_7" := "D"]> (<["name" := "Ada"]> answers) in
  (∀ number, 1 ≤ number ≤ length [demo_question_1; demo_question_2] →
             answers !! question_key number = answers' !! question_key number)
  ∧ calculate_score [demo_question_1; demo_question_2] answers
    = calculate_score [demo_question_1; demo_question_2] answers'.
Proof.
  intros answers answers'.
  assert (Hagree : ∀ number, 1 ≤ number ≤ length [demo_question_1; demo_question_2] →
             answers !! question_key number = answers' !! question_key number).
  { intros number Hnumber. simpl in Hnumber.
    assert (number = 1 ∨ number = 2) as [-> | ->] by lia; reflexivity. }
  split; [exact Hagree |].
  exact (calculate_score_reads_question_keys _ answers answers' Hagree).
Defined.

Lemma count_answered_correctly_all answers questions :
  ∀ i,
    (∀ j question,
       questions !! j = Some question →
       ∃ label,
         subscript question "correct_answer" = Ok (JStr label)
         ∧ answers !! question_key (i + j + 1) = Some label) →
    count_answered_correctly answers i questions = length questions.
Proof.
  induction questions as [|question rest IH]; intros i Hall; simpl; [done |].
  destruct (Hall 0 question eq_refl) as (label & Hlabel & Hanswer).
  rewrite Nat.add_0_r in Hanswer.
  unfold answered_correctly. rewrite Hanswer, Hlabel, String.eqb_refl.
  rewrite IH; [done |]. intros j q Hq.
  destruct (Hall (S j) q Hq) as (l & Hl & Ha). exists l. split; [done |].
  by replace (S i + j + 1) with (i + S j + 1) by lia.
Qed.

Lemma count_answered_correctly_none questions :
  ∀ i, count_answered_correctly ∅ i questions = 0.
Proof.
  induction questions as [|question rest IH]; intros i; simpl; [done |].
  unfold answered_correctly. by rewrite lookup_empty, IH.
Qed.

(** X18: two attempts.  When the label stored for every question is its
    correct label, every question is counted: [correct_answers] is
    [total_questions].  When nothing is stored and no question has [None]
    as correct answer, none is counted, and every entry has no answer and
    is marked incorrect. *)
Theorem calculate_score_perfect_and_blank (questions : list json) :
  questions ≠ [] →
  Forall (λ q, has_scoring_fields q = true) questions →
  (∀ answers,
     (∀ i question,
        questions !! i = Some question →
        ∃ label,
          subscript question "correct_answer" = Ok (JStr label)
          ∧ answers !! question_key (i + 1) = Some label) →
     ∃ score,
       calculate_score questions answers = Ok score
       ∧ correct_answers score = total_questions score
       ∧ total_questions score = length questions)
  ∧ (Forall (λ q, has_correct_label q = true) questions →
     ∃ score,
       calculate_score questions ∅ = Ok score
       ∧ correct_answers score = 0
       ∧ Forall (λ entry, student_answer entry = None ∧ is_correct entry = false)
           (results score)).
Proof.
  intros Hne Hfields. split.
  - intros answers Hall.
    assert (Hlabel : Forall (λ q, has_correct_label q = true) questions).
    { apply Forall_lookup_2. intros i question Hq.
      destruct (Hall i question Hq) as (label & Hlabel & _).
      unfold has_correct_label. by rewrite Hlabel. }
    destruct (score_loop_entries answers questions Hfields 0 0 [])
      as (entries & Hloop & Hlen & Hnth).
    unfold calculate_score. rewrite Hloop. simpl. unfold true_div.
    rewrite decide_False by (by destruct questions). simpl.
    eexists. split; [done |]. simpl. split; [| done].
    rewrite (marked_correct_count answers questions Hlabel 0 entries Hlen Hnth).
    apply count_answered_correctly_all. intros j question Hq.
    destruct (Hall j question Hq) as (label & ? & ?). by exists label.
  - intros Hlabel.
    destruct (score_loop_entries ∅ questions Hfields 0 0 [])
      as (entries & Hloop & Hlen & Hnth).
    unfold calculate_score. rewrite Hloop. simpl. unfold true_div.
    rewrite decide_False by (by destruct questions). simpl.
    eexists. split; [done |]. simpl. split.
    + rewrite (marked_correct_count ∅ questions Hlabel 0 entries Hlen Hnth).
      apply count_answered_correctly_none.
    + apply Forall_lookup_2. intros i entry Hentry.
      assert (Hi : i < length questions)
        by (rewrite <- Hlen; by eapply lookup_lt_Some).
      destruct (lookup_lt_is_Some_2 questions i Hi) as [question Hquestion].
      destruct (Hnth i question Hquestion) as (entry' & Hentry' & Hbody).
      assert (entry' = entry) as -> by congruence.
      assert (Hq : has_scoring_fields question = true)
        by (by eapply Forall_lookup_1 in Hfields).
      destruct (score_question_entry ∅ i question Hq)
        as (e & He & _ & Hans & Hc & _ & _ & Hcorrect & _).
      simpl in Hbody. rewrite Hbody in He. injection He as <-.
      rewrite lookup_empty in Hans. split; [done |].
      rewrite Hcorrect, Hans.
      assert (Hl : has_correct_label question = true)
        by (by eapply Forall_lookup_1 in Hlabel).
      unfold has_correct_label in Hl. rewrite Hc in Hl.
      by destruct (correct_answer entry).
Qed.

(** ** The results page of a session that got there *)

Lemma first_without_fields questions :
  Forall (λ q, has_scoring_fields q = true) questions
  ∨ ∃ good bad rest,
      questions = good ++ bad :: rest
      ∧ Forall (λ q, has_scoring_fields q = true) good
      ∧ has_scoring_fields bad = false.
Proof.
  induction questions as [|q qs IH]; [left; constructor |].
  destruct (has_scoring_fields q) eqn:Hq.
  - destruct IH as [Hall | (good & bad & rest & -> & Hgood & Hbad)].
    + left. by constructor.
    + right. exists (q :: good), bad, rest.
      split_and!; [done | by constructor | done].
  - right. exists [], q, qs. by split_and!.
Qed.

(** A question the test page can show has the fields [question_text] and
    [options]: the scorer can only miss its [correct_answer]. *)
Lemma displayable_missing_field question :
  displayable question = true →
  has_scoring_fields question = false →
  missing_field question = KeyError "correct_answer".
Proof.
  unfold displayable, has_scoring_fields, missing_field, subscript.
  destruct question as [| | | | | |fields]; try done.
  destruct (dict_get "question_text" fields) as [text|]; [| done].
  destruct (dict_get "options" fields) as [opts|]; [| done].
  destruct (dict_get "correct_answer" fields) as [correct|]; [| done].
  intros _. rewrite !bool_decide_eq_true_2 by eauto. done.
Qed.

Lemma calculate_score_shown_raises questions answers e :
  questions ≠ [] →
  Forall (λ q, displayable q = true) questions →
  calculate_score questions answers = Raise e →
  e = KeyError "correct_answer".
Proof.
  intros Hne Hshown Hraise.
  destruct (first_without_fields questions)
    as [Hfields | (good & bad & rest & -> & Hgood & Hbad)].
  - destruct (score_loop_entries answers questions Hfields 0 0 [])
      as (entries & Hloop & _).
    unfold calculate_score in Hraise. rewrite Hloop in Hraise. simpl in Hraise.
    unfold true_div in Hraise.
    rewrite decide_False in Hraise by (by destruct questions). done.
  - unfold calculate_score in Hraise.
    rewrite (score_loop_first_failure answers good bad rest Hgood Hbad) in Hraise.
    simpl in Hraise. injection Hraise as <-.
    apply displayable_missing_field; [| done].
    apply Forall_app in Hshown as [_ Hshown]. by inversion Hshown.
Qed.

Lemma displayable_results questions answers score :
  Forall (λ q, displayable q = true) questions →
  calculate_score questions answers = Ok score →
  Forall (λ entry, ∃ fields, options entry = JObj fields) (results score).
Proof.
  intros Hshown Hscore.
  destruct (calculate_score_ok_fields questions answers score Hscore)
    as [_ Hfields].
  destruct (score_loop_entries answers questions Hfields 0 0 [])
    as (entries & Hloop & Hlen & Hnth).
  unfold calculate_score in Hscore. rewrite Hloop in Hscore. simpl in Hscore.
  destruct (true_div (marked_correct entries) (length questions)); [|done].
  injection Hscore as <-. simpl.
  apply Forall_lookup_2. intros i entry Hentry.
  assert (Hi : i < length questions)
    by (rewrite <- Hlen; by eapply lookup_lt_Some).
  destruct (lookup_lt_is_Some_2 questions i Hi) as [question Hquestion].
  destruct (Hnth i question Hquestion) as (entry' & Hentry' & Hbody).
  assert (entry' = entry) as -> by congruence.
  assert (Hq : has_scoring_fields question = true)
    by (by eapply Forall_lookup_1 in Hfields).
  destruct (score_question_entry answers i question Hq)
    as (e & He & _ & _ & _ & _ & Hopts & _).
  simpl in Hbody. rewrite Hbody in He. injection He as <-.
  assert (Hdisplay : displayable question = true)
    by (by eapply Forall_lookup_1 in Hshown).
  unfold displayable in Hdisplay. rewrite Hopts in Hdisplay.
  destruct (subscript question "question_text"); [| done].
  destruct (options entry) as [| | | | | |fields]; try done. by exists fields.
Qed.

(** X20: a session gets to the results page only through the test page,
    which has then shown every question.  So in a session that completed
    its test the list of questions is not empty and every question has the
    fields [question_text] and [options], the latter a dict; the results
    page can only raise [KeyError] on [correct_answer], and it then leaves
    the store as it is, showing nothing and without drawing its button;
    otherwise it displays the report to its end, with the warning of a
    percentage below 60 and one error for each question answered wrong,
    draws its button and, when the button triggered the run, empties the
    store. *)
Theorem completed_test_was_shown_in_full (json_loads : string → decoded)
    (syllabus : list (string * list (string * (string * string))))
    (inp : user_input) (s : session_state) :
  reachable json_loads syllabus s →
  stage_of s = Completed →
  ∃ items answers name,
    question_items s = Some items
    ∧ student_answers s = Some answers
    ∧ student_name s = Some name
    ∧ items ≠ []
    ∧ Forall (λ q, displayable q = true) items
    ∧ match calculate_score items answers with
      | Ok score =>
          run json_loads syllabus inp s
          = if bool_decide (click inp = Some BtnAnotherTest)
            then Stop Rerun no_keys
                   (report_messages score name ++ [EvButton BtnAnotherTest])
            else Next () s
                   (report_messages score name ++ [EvButton BtnAnotherTest])
      | Raise e =>
          e = KeyError "correct_answer"
          ∧ run json_loads syllabus inp s = Stop (Raised e) s []
      end.
Proof.
  intros Hreach Hstage.
  pose proof (reachable_shown_invariant json_loads syllabus s Hreach) as Hshown.
  destruct (reachable_session_invariant json_loads syllabus s Hreach)
    as [-> | (created & data & started & completed & answers & cq & name
              & -> & _ & Htruthy & _ & _)]; [done |].
  assert (created = true ∧ started = true ∧ completed = true) as (-> & -> & ->)
    by (by destruct created, started, completed).
  destruct (Hshown eq_refl) as (items & cq' & Hitems & _ & _ & Hall).
  destruct (Hall eq_refl) as [Hne Hdisplay].
  exists items, answers, name. split_and!; [done | done | done | done | done |].
  assert (Hquestions : subscript data "questions" ≫= elements_of = Ok items).
  { unfold question_items in Hitems. simpl in Hitems.
    destruct (subscript data "questions" ≫= elements_of); by simplify_eq. }
  rewrite (results_page_run json_loads syllabus inp data items answers cq name
             (Htruthy eq_refl) Hquestions).
  destruct (calculate_score items answers) as [score|e] eqn:Hscore.
  - by rewrite (display_results_dicts score name _ []
                  (displayable_results items answers score Hdisplay Hscore)).
  - split; [| done]. by eapply calculate_score_shown_raises.
Qed.

(** ** The properties above on the sample session *)

(** The sample session in its other stages. *)
Example named_session_reachable :
  reachable decode_json demo_syllabus (set_student_name "Ada" fresh_session).
Proof.
  pose proof (reachable_new decode_json demo_syllabus) as H0.
  pose proof (reachable_run decode_json demo_syllabus (press None None) _ H0) as H1.
  pose proof (reachable_run decode_json demo_syllabus
                (demo_form (Failure "timeout")) _ H1) as H2.
  vm_compute in H2. vm_compute. exact H2.
Qed.

Example ready_session_reachable :
  reachable decode_json demo_syllabus (session_with demo_quiz false false ∅ 0).
Proof.
  pose proof (reachable_new decode_json demo_syllabus) as H0.
  pose proof (reachable_run decode_json demo_syllabus
                (demo_form (Content (Some demo_response))) _ H0) as H1.
  vm_compute in H1. vm_compute. exact H1.
Qed.

Example completed_session_reachable :
  reachable decode_json demo_syllabus
    (session_with demo_quiz true true (<["q_2" := "C"]> (<["q_1" := "A"]> ∅)) 1).
Proof.
  pose proof (reachable_run decode_json demo_syllabus
                (press (Some BtnFinish) (Some "C")) _ demo_session_reachable) as H.
  vm_compute in H. vm_compute. exact H.
Qed.

Lemma create_openai_prompt_skips_unknown_topics_witness :
  dict_get "Mathematics" demo_syllabus
  = Some [("Algebra", ("Linear and quadratic equations", "Solve for x"));
          ("Geometry", ("Triangles and circles", "Find the area"))]
  ∧ create_openai_prompt demo_syllabus (Some "Mathematics")
      ["Chemistry"; "Algebra"; "Optics"] "" 5 "Easy"
    = create_openai_prompt demo_syllabus (Some "Mathematics") ["Algebra"] "" 5 "Easy".
Proof.
  split; [reflexivity |].
  exact (create_openai_prompt_skips_unknown_topics demo_syllabus "Mathematics" _
           ["Chemistry"; "Algebra"; "Optics"] "" 5 "Easy" eq_refl).
Defined.

Lemma creation_page_creates_test_witness :
  let inp := demo_form (Content (Some demo_response)) in
  form_accepted demo_syllabus inp = true
  ∧ search_braces demo_response = Some ("{" +:+ demo_json_body +:+ "}")
  ∧ truthy demo_quiz = true
  ∧ ∃ prompt,
      show_test_creation_interface decode_json demo_syllabus inp fresh_session []
      = Stop Rerun
          (set_test_created true
             (set_test_data demo_quiz (set_student_name "Ada" fresh_session)))
          [EvButton BtnCreate; EvGenerate "sk-test" prompt]
      ∧ stage_of
          (set_test_created true
             (set_test_data demo_quiz (set_student_name "Ada" fresh_session)))
        = Ready.
Proof.
  intros inp.
  assert (Hform : form_accepted demo_syllabus inp = true) by reflexivity.
  assert (Hspan : search_braces demo_response = Some ("{" +:+ demo_json_body +:+ "}"))
    by (vm_compute; reflexivity).
  assert (Htruthy : truthy demo_quiz = true) by reflexivity.
  split_and!; [assumption | assumption | assumption |].
  destruct (creation_page_creates_test decode_json demo_syllabus inp fresh_session
              [] demo_response ("{" +:+ demo_json_body +:+ "}") demo_quiz
              Hform eq_refl Hspan decode_demo_json Htruthy)
    as (prompt & _ & Hpage & Hstage).
  exists prompt. split; [exact Hpage | exact (Hstage eq_refl)].
Defined.

Lemma start_page_behaviour_witness :
  let s := session_with demo_quiz false false ∅ 0 in
  student_name s = Some "Ada"
  ∧ test_data s = Some demo_quiz
  ∧ show_test_start_interface (press (Some BtnStart) None) s []
    = Stop Rerun (session_with demo_quiz true false ∅ 0) [EvButton BtnStart].
Proof.
  intros s. split_and!; [reflexivity | reflexivity |].
  destruct (start_page_behaviour (press (Some BtnStart) None) s [] "Ada" demo_quiz
              eq_refl eq_refl) as (Hstart & _ & _).
  exact (Hstart (JArr [demo_question_1; demo_question_2])
           [demo_question_1; demo_question_2] eq_refl eq_refl eq_refl).
Defined.

Lemma creating_stage_holds_only_the_name_witness :
  let s := set_student_name "Ada" fresh_session in
  reachable decode_json demo_syllabus s
  ∧ stage_of s = Creating
  ∧ (s = no_keys ∨ ∃ name, s = set_student_name name fresh_session).
Proof.
  intros s. split_and!; [exact named_session_reachable | reflexivity |].
  exact (creating_stage_holds_only_the_name decode_json demo_syllabus s
           named_session_reachable eq_refl).
Defined.

Lemma ready_stage_holds_unanswered_test_witness :
  let s := session_with demo_quiz false false ∅ 0 in
  reachable decode_json demo_syllabus s
  ∧ stage_of s = Ready
  ∧ ∃ data name,
      truthy data = true
      ∧ s = mk_session (Some true) (Some data) (Some false) (Some false)
              (Some ∅) (Some 0) (Some name).
Proof.
  intros s. split_and!; [exact ready_session_reachable | reflexivity |].
  exact (ready_stage_holds_unanswered_test decode_json demo_syllabus s
           ready_session_reachable eq_refl).
Defined.

Lemma answers_belong_to_questions_witness :
  let s := session_with demo_quiz true true
             (<["q_2" := "C"]> (<["q_1" := "A"]> ∅)) 1 in
  reachable decode_json demo_syllabus s
  ∧ ∃ items number,
      "C" ≠ ""
      ∧ question_items s = Some items
      ∧ "q_2" = question_key number
      ∧ 1 ≤ number ≤ length items.
Proof.
  intros s. split; [exact completed_session_reachable |].
  destruct (answers_belong_to_questions decode_json demo_syllabus s
              completed_session_reachable) as [Hanswers _].
  destruct (Hanswers (<["q_2" := "C"]> (<["q_1" := "A"]> ∅)) "q_2" "C"
              eq_refl eq_refl) as (Hlabel & items & number & Hitems & Hkey & Hnumber).
  exists items, number. split_and!; try assumption; apply Hnumber.
Defined.

Lemma stage_moves_forward_witness :
  let s := session_with demo_quiz true false (<["q_1" := "A"]> ∅) 1 in
  let s' := final_state (run decode_json demo_syllabus
                           (press (Some BtnFinish) (Some "C")) s) in
  reachable decode_json demo_syllabus s
  ∧ stage_of s = InProgress
  ∧ stage_of s' = Completed
  ∧ (stage_of s' = stage_of s
     ∨ stage_of s' = next_stage (stage_of s)
     ∨ (s' = no_keys ∧ (stage_of s = Ready ∨ stage_of s = Completed))).
Proof.
  intros s s'.
  split_and!; [exact demo_session_reachable | reflexivity | reflexivity |].
  exact (stage_moves_forward decode_json demo_syllabus
           (press (Some BtnFinish) (Some "C")) s demo_session_reachable).
Defined.

Lemma test_data_kept_after_creation_witness :
  let s := session_with demo_quiz true false (<["q_1" := "A"]> ∅) 1 in
  let s' := final_state (run decode_json demo_syllabus
                           (press (Some BtnPrevious) (Some "B")) s) in
  reachable decode_json demo_syllabus s
  ∧ stage_of s ≠ Creating
  ∧ (s' = no_keys
     ∨ (test_data s' = test_data s
        ∧ student_name s' = student_name s
        ∧ test_created s' = Some true)).
Proof.
  intros s s'.
  assert (Hstage : stage_of s ≠ Creating) by discriminate.
  split_and!; [exact demo_session_reachable | assumption |].
  exact (test_data_kept_after_creation decode_json demo_syllabus
           (press (Some BtnPrevious) (Some "B")) s demo_session_reachable Hstage).
Defined.

Lemma foreign_press_changes_nothing_witness :
  let s := session_with demo_quiz true false (<["q_1" := "A"]> ∅) 1 in
  let inp := press (Some BtnAnotherTest) (Some "B") in
  (∀ b, click inp = Some b → b ∉ stage_buttons (stage_of s))
  ∧ final_state (run decode_json demo_syllabus inp s) = with_defaults s.
Proof.
  intros s inp.
  assert (Hforeign : ∀ b, click inp = Some b → b ∉ stage_buttons (stage_of s)).
  { intros b [= <-]. apply (bool_decide_unpack _). vm_compute. exact I. }
  split; [exact Hforeign |].
  exact (foreign_press_changes_nothing decode_json demo_syllabus inp s Hforeign).
Defined.

Lemma calculate_score_report_consistent_witness :
  let questions := [demo_question_1; demo_question_2] in
  let answers : gmap string string := <["q_1" := "A"]> (<["q_2" := "C"]> ∅) in
  ∃ score,
    calculate_score questions answers = Ok score
    ∧ total_questions score = length questions
    ∧ length (results score) = length questions
    ∧ correct_answers score = marked_correct (results score)
    ∧ correct_answers score ≤ total_questions score.
Proof.
  intros questions answers.
  destruct (calculate_score questions answers) as [score|e] eqn:Hscore;
    [| discriminate Hscore].
  exists score.
  destruct (calculate_score_report_consistent questions answers score Hscore)
    as (Htotal & Hlen & Hcorrect & Hle & _).
  split_and!; [reflexivity | assumption | assumption | assumption | assumption].
Defined.

Lemma calculate_score_perfect_and_blank_witness :
  let questions := [demo_question_1; demo_question_2] in
  let answers : gmap string string := <["q_1" := "A"]> (<["q_2" := "B"]> ∅) in
  questions ≠ []
  ∧ Forall (λ q, has_scoring_fields q = true) questions
  ∧ (∃ score,
       calculate_score questions answers = Ok score
       ∧ correct_answers score = total_questions score
       ∧ total_questions score = length questions)
  ∧ (∃ score,
       calculate_score questions ∅ = Ok score
       ∧ correct_answers score = 0
       ∧ Forall (λ entry, student_answer entry = None ∧ is_correct entry = false)
           (results score)).
Proof.
  intros questions answers.
  assert (Hne : questions ≠ []) by discriminate.
  assert (Hfields : Forall (λ q, has_scoring_fields q = true) questions)
    by (repeat constructor).
  destruct (calculate_score_perfect_and_blank questions Hne Hfields)
    as [Hperfect Hblank].
  split_and!; [assumption | assumption | |].
  - apply Hperfect. intros [|[|i]] question Hquestion; [| | done].
    + exists "A". by injection Hquestion as <-.
    + exists "B". by injection Hquestion as <-.
  - apply Hblank. repeat constructor.
Defined.

Lemma answers_recorded_along_the_test_witness :
  let qs := [demo_question_1; demo_question_2] in
  let inps := [press (Some BtnNext) (Some "A"); press (Some BtnFinish) (Some "C")] in
  subscript demo_quiz "questions" = Ok (JArr qs)
  ∧ qs ≠ []
  ∧ Forall (λ q, displayable q = true) qs
  ∧ length inps = length qs
  ∧ (∀ i inp, inps !! i = Some inp →
       click inp = Some (if decide (i = length qs - 1) then BtnFinish else BtnNext))
  ∧ ∃ answers',
      runs decode_json demo_syllabus inps (session_with demo_quiz true false ∅ 0)
      = session_with demo_quiz true true answers' 1
      ∧ answers' !! "q_1" = Some "A"
      ∧ answers' !! "q_2" = Some "C"
      ∧ answers' !! "q_3" = None.
Proof.
  intros qs inps.
  assert (Hqs : subscript demo_quiz "questions" = Ok (JArr qs)) by reflexivity.
  assert (Hne : qs ≠ []) by discriminate.
  assert (Hshown : Forall (λ q, displayable q = true) qs) by (repeat constructor).
  assert (Hlen : length inps = length qs) by reflexivity.
  assert (Hclick : ∀ i inp, inps !! i = Some inp →
            click inp = Some (if decide (i = length qs - 1) then BtnFinish else BtnNext)).
  { intros [|[|i]] inp Hinp; [| | done]; by injection Hinp as <-. }
  split_and!; [assumption | assumption | assumption | assumption | assumption |].
  destruct (answers_recorded_along_the_test decode_json demo_syllabus demo_quiz qs
              "Ada" ∅ inps Hqs Hne Hshown Hlen Hclick)
    as (answers' & Hruns & Hstored & Hother).
  exists answers'. split_and!.
  - exact Hruns.
  - exact (Hstored 0 _ eq_refl).
  - exact (Hstored 1 _ eq_refl).
  - rewrite (Hother "q_3"); [reflexivity |].
    intros [|[|i]] Hi; [discriminate | discriminate | simpl in Hi; lia].
Defined.

Lemma completed_test_was_shown_in_full_witness :
  let s := session_with demo_quiz true true
             (<["q_2" := "C"]> (<["q_1" := "A"]> ∅)) 1 in
  let inp := press (Some BtnAnotherTest) None in
  reachable decode_json demo_syllabus s
  ∧ stage_of s = Completed
  ∧ run decode_json demo_syllabus inp s
    = Stop Rerun no_keys
        [EvWarning "📚 Keep studying, Ada! You can do better next time.";
         EvError "❌ Question 2: Incorrect";
         EvButton BtnAnotherTest]
  ∧ ∃ items answers name,
      question_items s = Some items
      ∧ student_answers s = Some answers
      ∧ student_name s = Some name
      ∧ items ≠ []
      ∧ Forall (λ q, displayable q = true) items
      ∧ match calculate_score items answers with
        | Ok score =>
            run decode_json demo_syllabus inp s
            = if bool_decide (click inp = Some BtnAnotherTest)
              then Stop Rerun no_keys
                     (report_messages score name ++ [EvButton BtnAnotherTest])
              else Next () s
                     (report_messages score name ++ [EvButton BtnAnotherTest])
        | Raise e =>
            e = KeyError "correct_answer"
            ∧ run decode_json demo_syllabus inp s = Stop (Raised e) s []
        end.
Proof.
  intros s inp.
  split_and!;
    [exact completed_session_reachable | reflexivity | vm_compute; reflexivity |].
  exact (completed_test_was_shown_in_full decode_json demo_syllabus inp s
           completed_session_reachable eq_refl).
Defined.

Lemma create_openai_prompt_key_error_witness :
  (∃ prompt,
     create_openai_prompt demo_syllabus (Some "History") [] "" 5 "Easy" = Ok prompt)
  ∧ (∃ prompt,
       create_openai_prompt demo_syllabus (Some "Mathematics") ["Algebra"] "" 5 "Easy"
       = Ok prompt)
  ∧ create_openai_prompt demo_syllabus (Some "History") ["Algebra"] "" 5 "Easy"
    = Raise (KeyError "History")
  ∧ create_openai_prompt demo_syllabus None ["Algebra"] "" 5 "Easy"
    = Raise (KeyError "None").
Proof.
  split_and!.
  - destruct (create_openai_prompt_key_error demo_syllabus (Some "History") []
                "" 5 "Easy") as (Hnone & _ & _).
    apply Hnone. reflexivity.
  - destruct (create_openai_prompt_key_error demo_syllabus (Some "Mathematics")
                ["Algebra"] "" 5 "Easy") as (_ & Hknown & _).
    apply Hknown. eexists. reflexivity.
  - destruct (create_openai_prompt_key_error demo_syllabus (Some "History")
                ["Algebra"] "" 5 "Easy") as (_ & _ & Hunknown).
    apply Hunknown; [discriminate | reflexivity].
  - destruct (create_openai_prompt_key_error demo_syllabus None
                ["Algebra"] "" 5 "Easy") as (_ & _ & Hunknown).
    apply Hunknown; [discriminate | reflexivity].
Defined.

Lemma calculate_score_raises_witness :
  let answers : gmap string string := <["q_1" := "A"]> ∅ in
  calculate_score [] answers = Raise ZeroDivisionError
  ∧ calculate_score
      ([demo_question_1] ++ JObj [("question_text", JStr "?")] :: [JStr "no question"])
      answers
    = Raise (KeyError "correct_answer")
  ∧ calculate_score ([demo_question_1] ++ JStr "no question" :: [demo_question_2])
      answers
    = Raise TypeError.
Proof.
  intros answers.
  destruct (calculate_score_raises answers) as [Hempty Hfirst].
  split_and!; [exact Hempty | |].
  - apply (Hfirst [demo_question_1] (JObj [("question_text", JStr "?")])
             [JStr "no question"]); [repeat constructor | reflexivity].
  - apply (Hfirst [demo_question_1] (JStr "no question") [demo_question_2]);
      [repeat constructor | reflexivity].
Defined.

(** With a recursion limit of 2 the decoder gives up on the sample quiz:
    the creation page raises [RecursionError], the name already stored;
    with the decoder that raises nothing it does not raise. *)
Lemma creation_page_raises_what_json_loads_raises_witness :
  let inp := demo_form (Content (Some demo_response)) in
  let page :=
    show_test_creation_interface (decode_json_within 2) demo_syllabus inp
      fresh_session [] in
  decode_json_within 2 ("{" +:+ demo_json_body +:+ "}") = Uncaught RecursionError
  ∧ raised page = Some RecursionError
  ∧ final_state page = set_student_name "Ada" fresh_session
  ∧ raised (show_test_creation_interface decode_json demo_syllabus inp
              fresh_session [])
    = None.
Proof.
  intros inp page.
  destruct (creation_page_raises_what_json_loads_raises (decode_json_within 2)
              demo_syllabus inp fresh_session []) as (Hraised & Hstored & _).
  destruct (creation_page_raises_what_json_loads_raises decode_json
              demo_syllabus inp fresh_session []) as (_ & _ & Hnone).
  assert (Hdec : decode_json_within 2 ("{" +:+ demo_json_body +:+ "}")
                 = Uncaught RecursionError) by (vm_compute; reflexivity).
  assert (Hpage : raised page = Some RecursionError).
  { apply Hraised. split; [reflexivity |].
    exists demo_response, ("{" +:+ demo_json_body +:+ "}").
    split_and!; [reflexivity | vm_compute; reflexivity | exact Hdec]. }
  split_and!; [exact Hdec | exact Hpage | |].
  - apply Hstored. fold page. rewrite Hpage. by eexists.
  - apply Hnone. intros span e. unfold decode_json.
    repeat case_match; discriminate.
Defined.
